(** * Offscreen QML surface: the shared object between the owning thread
      and the render thread (libraries/qml/src/qml/impl/SharedObject.cpp).

    The member functions of [SharedObject] are embedded as computations in a
    small monad that threads the object's fields, records the calls made on
    collaborators (mutex, wait condition, event queue, texture cache, Qt
    scene objects) as a trace of actions, and distinguishes a normal return
    from [qFatal] and from an undefined integer division.  Calls made through
    member pointers to Qt objects are recorded as actions; whether those
    pointers are valid is outside the model, and so are logging, profiling
    ranges and debug-only assertions.  The constructor is represented by the
    state it leaves; the destructor is not modelled. *)

From Stdlib Require Import ZArith List Bool String Lia Permutation.
Import ListNotations.
Local Open Scope Z_scope.

(** ** Data *)

Definition Ptr := Z.
Definition nullptr : Ptr := 0.

(** [using TextureAndFence = std::pair<uint32_t, void*>]: texture name and
    fence; [{0, 0}] is the empty value. *)
Definition TextureAndFence := (Z * Ptr)%type.
Definition noTexture : TextureAndFence := (0, nullptr).

(** [QSize]: width and height. *)
Definition QSize := (Z * Z)%type.

Definition QSize_eqb (a b : QSize) : bool :=
  (fst a =? fst b) && (snd a =? snd b).

(** [OffscreenEvent::Type] *)
Inductive OffscreenEventType := Initialize | Render | Quit | OtherEvent.

Inductive EventPriority := NormalEventPriority | HighEventPriority.

(** Receivers of [QCoreApplication::postEvent]: [this] or [_renderObject]. *)
Inductive Receiver := ToThis | ToRenderObject.

(** The members of [SharedObject] that are assigned after construction. *)
Inductive Field :=
| f_latestTextureAndFence | f_rootItem | f_qmlContext | f_proxyWindow
| f_renderObject | f_renderTimer | f_renderThread
| f_size | f_renderRequested | f_syncRequested | f_quit | f_paused.

Definition Field_eqb (a b : Field) : bool :=
  match a, b with
  | f_latestTextureAndFence, f_latestTextureAndFence
  | f_rootItem, f_rootItem | f_qmlContext, f_qmlContext
  | f_proxyWindow, f_proxyWindow
  | f_renderObject, f_renderObject | f_renderTimer, f_renderTimer
  | f_renderThread, f_renderThread | f_size, f_size
  | f_renderRequested, f_renderRequested
  | f_syncRequested, f_syncRequested | f_quit, f_quit
  | f_paused, f_paused => true
  | _, _ => false
  end.

(** Calls on collaborators, in program order. *)
Inductive Action :=
| MutexLock | MutexUnlock                 (* _mutex *)
| CondWait | CondWakeOne                  (* _cond.wait(&_mutex), _cond.wakeOne() *)
| Store (f : Field)                       (* assignment to a member *)
| PostEvent (to : Receiver) (e : OffscreenEventType) (p : EventPriority)
| ReleaseTexture (tf : TextureAndFence)   (* offscreenTextures.releaseTexture *)
| ReleaseSize (sz : QSize)                (* offscreenTextures.releaseSize *)
| Report                                  (* offscreenTextures.report *)
| RenderControlInitialize | RenderControlSync | RenderControlPolishItems
| RenderControlInvalidate | RenderControlPrepareThread
| RenderControlSetRenderWindow
| WindowSetGeometry (sz : QSize) | WindowSetRenderTarget (fbo : Z) (sz : QSize)
| ContentItemSetSize (sz : QSize)
| RootItemSetSize (sz : QSize) | RootItemSetParent
| ContextSetProperty (name : string)
| AppSetProperty (name : string)
| SurfaceInitializeEngine
| SurfaceOnRootContextCreated | SurfaceEmitRootContextCreated
| EngineSetIncubationController
| Connect (signal : string) | Disconnect (obj : string)
| DeleteLaterThis | DeleteLaterTimer
| ThreadSetObjectName | ThreadStart | ThreadWait
| TimerSetType | TimerSetInterval (ms : Z) | TimerStart
| CanvasDoneCurrent
| QObjectEvent.

(** ** The object *)

Record SharedObject := mkSharedObject {
  _latestTextureAndFence : TextureAndFence;
  _rootItem : Ptr;
  _qmlContext : Ptr;
  _proxyWindow : Ptr;
  _renderObject : Ptr;
  _renderTimer : Ptr;
  _renderThread : Ptr;
  _lastRenderTime : Z;
  _size : QSize;
  _maxFps : Z;
  _renderRequested : bool;
  _syncRequested : bool;
  _quit : bool;
  _paused : bool;
  (* application-wide state that the member functions read back *)
  appSharedContext : Ptr;         (* qApp property OFFSCREEN_QML_SHARED_CONTEXT_PROPERTY *)
  nextAddress : positive          (* address handed out by the next [new] *)
}.

Definition set_latestTextureAndFence v s :=
  mkSharedObject v (_rootItem s) (_qmlContext s) (_proxyWindow s)
    (_renderObject s) (_renderTimer s) (_renderThread s) (_lastRenderTime s)
    (_size s) (_maxFps s) (_renderRequested s) (_syncRequested s) (_quit s)
    (_paused s) (appSharedContext s) (nextAddress s).
Definition set_rootItem v s :=
  mkSharedObject (_latestTextureAndFence s) v (_qmlContext s) (_proxyWindow s)
    (_renderObject s) (_renderTimer s) (_renderThread s) (_lastRenderTime s)
    (_size s) (_maxFps s) (_renderRequested s) (_syncRequested s) (_quit s)
    (_paused s) (appSharedContext s) (nextAddress s).
Definition set_qmlContext v s :=
  mkSharedObject (_latestTextureAndFence s) (_rootItem s) v (_proxyWindow s)
    (_renderObject s) (_renderTimer s) (_renderThread s) (_lastRenderTime s)
    (_size s) (_maxFps s) (_renderRequested s) (_syncRequested s) (_quit s)
    (_paused s) (appSharedContext s) (nextAddress s).
Definition set_proxyWindow v s :=
  mkSharedObject (_latestTextureAndFence s) (_rootItem s) (_qmlContext s) v
    (_renderObject s) (_renderTimer s) (_renderThread s) (_lastRenderTime s)
    (_size s) (_maxFps s) (_renderRequested s) (_syncRequested s) (_quit s)
    (_paused s) (appSharedContext s) (nextAddress s).
Definition set_renderObject v s :=
  mkSharedObject (_latestTextureAndFence s) (_rootItem s) (_qmlContext s)
    (_proxyWindow s) v (_renderTimer s) (_renderThread s) (_lastRenderTime s)
    (_size s) (_maxFps s) (_renderRequested s) (_syncRequested s) (_quit s)
    (_paused s) (appSharedContext s) (nextAddress s).
Definition set_renderTimer v s :=
  mkSharedObject (_latestTextureAndFence s) (_rootItem s) (_qmlContext s)
    (_proxyWindow s) (_renderObject s) v (_renderThread s) (_lastRenderTime s)
    (_size s) (_maxFps s) (_renderRequested s) (_syncRequested s) (_quit s)
    (_paused s) (appSharedContext s) (nextAddress s).
Definition set_renderThread v s :=
  mkSharedObject (_latestTextureAndFence s) (_rootItem s) (_qmlContext s)
    (_proxyWindow s) (_renderObject s) (_renderTimer s) v (_lastRenderTime s)
    (_size s) (_maxFps s) (_renderRequested s) (_syncRequested s) (_quit s)
    (_paused s) (appSharedContext s) (nextAddress s).
Definition set_size v s :=
  mkSharedObject (_latestTextureAndFence s) (_rootItem s) (_qmlContext s)
    (_proxyWindow s) (_renderObject s) (_renderTimer s) (_renderThread s)
    (_lastRenderTime s) v (_maxFps s) (_renderRequested s) (_syncRequested s)
    (_quit s) (_paused s) (appSharedContext s)
    (nextAddress s).
Definition set_renderRequested v s :=
  mkSharedObject (_latestTextureAndFence s) (_rootItem s) (_qmlContext s)
    (_proxyWindow s) (_renderObject s) (_renderTimer s) (_renderThread s)
    (_lastRenderTime s) (_size s) (_maxFps s) v (_syncRequested s) (_quit s)
    (_paused s) (appSharedContext s) (nextAddress s).
Definition set_syncRequested v s :=
  mkSharedObject (_latestTextureAndFence s) (_rootItem s) (_qmlContext s)
    (_proxyWindow s) (_renderObject s) (_renderTimer s) (_renderThread s)
    (_lastRenderTime s) (_size s) (_maxFps s) (_renderRequested s) v (_quit s)
    (_paused s) (appSharedContext s) (nextAddress s).
Definition set_quit v s :=
  mkSharedObject (_latestTextureAndFence s) (_rootItem s) (_qmlContext s)
    (_proxyWindow s) (_renderObject s) (_renderTimer s) (_renderThread s)
    (_lastRenderTime s) (_size s) (_maxFps s) (_renderRequested s)
    (_syncRequested s) v (_paused s) (appSharedContext s)
    (nextAddress s).
Definition set_paused v s :=
  mkSharedObject (_latestTextureAndFence s) (_rootItem s) (_qmlContext s)
    (_proxyWindow s) (_renderObject s) (_renderTimer s) (_renderThread s)
    (_lastRenderTime s) (_size s) (_maxFps s) (_renderRequested s)
    (_syncRequested s) (_quit s) v (appSharedContext s)
    (nextAddress s).
Definition set_appSharedContext v s :=
  mkSharedObject (_latestTextureAndFence s) (_rootItem s) (_qmlContext s)
    (_proxyWindow s) (_renderObject s) (_renderTimer s) (_renderThread s)
    (_lastRenderTime s) (_size s) (_maxFps s) (_renderRequested s)
    (_syncRequested s) (_quit s) (_paused s) v
    (nextAddress s).
Definition set_nextAddress v s :=
  mkSharedObject (_latestTextureAndFence s) (_rootItem s) (_qmlContext s)
    (_proxyWindow s) (_renderObject s) (_renderTimer s) (_renderThread s)
    (_lastRenderTime s) (_size s) (_maxFps s) (_renderRequested s)
    (_syncRequested s) (_quit s) (_paused s)
    (appSharedContext s) v.

(** ** The monad: fields, trace, [qFatal] *)

Inductive Outcome (A : Type) :=
| Done (a : A) (s : SharedObject) (tr : list Action)
| Fatal (msg : string)      (* qFatal: the process aborts *)
| Undefined.                (* integer division by zero *)
Arguments Done {A} a s tr.
Arguments Fatal {A} msg.
Arguments Undefined {A}.

Definition M (A : Type) := SharedObject -> Outcome A.

Definition ret {A} (a : A) : M A := fun s => Done a s [].

Definition bind {A B} (m : M A) (k : A -> M B) : M B :=
  fun s =>
    match m s with
    | Done a s1 t1 =>
        match k a s1 with
        | Done b s2 t2 => Done b s2 (t1 ++ t2)
        | Fatal msg => Fatal msg
        | Undefined => Undefined
        end
    | Fatal msg => Fatal msg
    | Undefined => Undefined
    end.

Declare Scope so_scope.
Delimit Scope so_scope with so.
Notation "x <- m ;; k" := (bind m (fun x => k))
  (at level 61, m at next level, right associativity) : so_scope.
Notation "m ;; k" := (bind m (fun _ => k))
  (at level 61, right associativity) : so_scope.
Local Open Scope so_scope.

Definition load {A} (proj : SharedObject -> A) : M A :=
  fun s => Done (proj s) s [].
Definition act (a : Action) : M unit := fun s => Done tt s [a].
(** Assignment to member [f]. *)
Definition store (f : Field) (upd : SharedObject -> SharedObject) : M unit :=
  fun s => Done tt (upd s) [Store f].
(** A change of the application-wide state that the model tracks (no member
    of [SharedObject] is assigned). *)
Definition track (upd : SharedObject -> SharedObject) : M unit :=
  fun s => Done tt (upd s) [].
Definition qFatal {A} (msg : string) : M A := fun _ => Fatal msg.
Definition undefined {A} : M A := fun _ => Undefined.
Definition when (b : bool) (m : M unit) : M unit := if b then m else ret tt.

(** [QMutexLocker lock(&_mutex)] around a scope: every way out of the scope
    unlocks. *)
Definition QMutexLocker {A} (body : M A) : M A :=
  act MutexLock ;; a <- body ;; act MutexUnlock ;; ret a.

(** [new T(...)]: a fresh, non-null address. *)
Definition new : M Ptr :=
  fun s => Done (Z.pos (nextAddress s))
                (set_nextAddress (Pos.succ (nextAddress s)) s) [].

Definition postEvent to e p : M unit := act (PostEvent to e p).

(** ** Constants *)

(** [static const int MIN_TIMER_MS = 5] *)
Definition MIN_TIMER_MS : Z := 5.

(** Modelled from the spec: [USECS_PER_SECOND] comes from
    NumericalConstants.h, which is not among the sources at hand; the number
    of microseconds in one second ("1/maxFps seconds"). *)
Definition USECS_PER_SECOND : Z := 1000000.

(** Timestamps are unsigned 64-bit microsecond counts. *)
Definition uint64 (z : Z) : Z := z mod 2 ^ 64.

Definition OFFSCREEN_QML_SHARED_CONTEXT_PROPERTY : string :=
  "com.highfidelity.qml.gl.sharedContext".

Definition nonnull (p : Z) : bool := negb (p =? 0).

(** ** Member functions, in the order of SharedObject.cpp *)

(** [current] is [QOpenGLContextWrapper::currentContext()]. *)
Definition setSharedContext (sharedContext current : Ptr) : M unit :=
  act (AppSetProperty OFFSCREEN_QML_SHARED_CONTEXT_PROPERTY) ;;
  track (set_appSharedContext sharedContext) ;;
  if negb (current =? sharedContext)
  then qFatal "The shared context must be the current context when setting"
  else ret tt.

Definition getSharedContext : M Ptr := load appSharedContext.

(** The state left by the constructor.  SharedObject.h is not among the
    sources at hand: pointers start null and flags false (the functions
    below test them before any assignment); the initial [_size] and
    [_maxFps] are parameters. *)
Definition constructed (size0 : QSize) (maxFps0 : Z) : SharedObject :=
  mkSharedObject noTexture nullptr nullptr nullptr nullptr nullptr nullptr
    0 size0 maxFps0 false false false false nullptr 1%positive.

Definition acquireEngine : M Ptr :=
  result <- new ;;
  act SurfaceInitializeEngine ;;
  ret result.

(** [hasIncubationController] is [qmlEngine->incubationController()] being
    non-null. *)
Definition create (hasIncubationController : bool) : M unit :=
  r <- load _rootItem ;;
  if nonnull r then qFatal "QML surface root item already set"
  else
    act (Connect "focusObjectChanged") ;;
    _ <- acquireEngine ;;
    ctx <- new ;;
    store f_qmlContext (set_qmlContext ctx) ;;
    act SurfaceOnRootContextCreated ;;
    act SurfaceEmitRootContextCreated ;;
    when (negb hasIncubationController) (act EngineSetIncubationController) ;;
    act (ContextSetProperty "offscreenWindow").

(** [windowSize] is [_quickWindow->size()]. *)
Definition setRootItem (rootItem : Ptr) (windowSize : QSize) : M unit :=
  store f_rootItem (set_rootItem rootItem) ;;
  act (RootItemSetSize windowSize) ;;
  t <- new ;;
  store f_renderThread (set_renderThread t) ;;
  act ThreadSetObjectName ;;
  act ThreadStart ;;
  o <- new ;;
  store f_renderObject (set_renderObject o) ;;
  postEvent ToThis Initialize NormalEventPriority ;;
  act (Connect "renderRequested") ;;
  act (Connect "sceneChanged").

Definition destroy : M unit :=
  q <- load _quit ;;
  if q then ret tt
  else
    r <- load _rootItem ;;
    if negb (nonnull r) then act DeleteLaterThis
    else
      store f_paused (set_paused true) ;;
      t <- load _renderTimer ;;
      when (nonnull t) (act (Disconnect "_renderTimer") ;; act DeleteLaterTimer) ;;
      act (Disconnect "_renderControl") ;;
      act (Disconnect "qApp") ;;
      QMutexLocker
        (store f_quit (set_quit true) ;;
         postEvent ToRenderObject Quit HighEventPriority) ;;
      act ThreadWait.

(** [shareContext] is [context->shareContext()], [nsight] is
    [nsightActive()]. *)
Definition initializeRenderControl (shareContext : Ptr) (nsight : bool) : M unit :=
  shared <- getSharedContext ;;
  if negb (shareContext =? shared)
  then qFatal "QML rendering context has no share context"
  else when (negb nsight) (act RenderControlInitialize).

Definition releaseTextureAndFence : M unit :=
  QMutexLocker
    (l <- load _latestTextureAndFence ;;
     when (nonnull (fst l))
       (act (ReleaseTexture l) ;;
        store f_latestTextureAndFence (set_latestTextureAndFence noTexture))).

Definition setRenderTarget (fbo : Z) (size : QSize) : M unit :=
  act (WindowSetRenderTarget fbo size).

Definition getSize : M QSize := QMutexLocker (load _size).

Definition wait : M unit := act CondWait.
Definition wake : M unit := act CondWakeOne.

Definition requestRender : M unit :=
  r <- load _renderRequested ;;
  if r then ret tt
  else store f_renderRequested (set_renderRequested true).

Definition requestRenderSync : M unit :=
  q <- load _quit ;;
  if q then ret tt
  else
    QMutexLocker (store f_syncRequested (set_syncRequested true)) ;;
    requestRender.

Definition setSize (size : QSize) : M unit :=
  cur <- getSize ;;
  if QSize_eqb cur size then ret tt
  else
    QMutexLocker (store f_size (set_size size)) ;;
    act (WindowSetGeometry size) ;;
    act (ContentItemSetSize size) ;;
    r <- load _rootItem ;;
    when (nonnull r)
      (act (ContextSetProperty "surfaceSize") ;; act (RootItemSetSize size)) ;;
    requestRenderSync.

(** [syncOutcome] is what [_renderControl->sync()] returns when it is
    called. *)
Definition preRender (nsight syncOutcome : bool) : M bool :=
  QMutexLocker
    (p <- load _paused ;;
     if p then
       sr <- load _syncRequested ;;
       when sr wake ;;
       ret false
     else
       sr <- load _syncRequested ;;
       if sr then
         syncResult <- (if negb nsight
                        then act RenderControlSync ;; ret syncOutcome
                        else ret true) ;;
         wake ;;
         if negb syncResult then ret false
         else
           store f_syncRequested (set_syncRequested false) ;;
           ret true
       else ret true).

Definition shutdownRendering (size : QSize) : M unit :=
  QMutexLocker
    (when (negb (QSize_eqb size (0, 0))) (act (ReleaseSize size)) ;;
     act RenderControlInvalidate ;;
     act CanvasDoneCurrent ;;
     wake).

Definition isQuit : M bool := QMutexLocker (load _quit).

(** [textureAndFence] is the caller's variable, passed by reference; its
    value after the call is returned next to the result. *)
Definition fetchTexture (textureAndFence : TextureAndFence)
  : M (bool * TextureAndFence) :=
  QMutexLocker
    (l <- load _latestTextureAndFence ;;
     if 0 =? fst l then ret (false, textureAndFence)
     else
       (* textureAndFence = { 0, 0 };
          std::swap(textureAndFence, _latestTextureAndFence); *)
       let textureAndFence := noTexture in
       store f_latestTextureAndFence (set_latestTextureAndFence textureAndFence) ;;
       ret (true, l)).

Definition setProxyWindow (window : Ptr) : M unit :=
  store f_proxyWindow (set_proxyWindow window) ;;
  act RenderControlSetRenderWindow.

Definition onInitialize : M unit :=
  act RootItemSetParent ;;
  act RenderControlPrepareThread ;;
  postEvent ToRenderObject Initialize NormalEventPriority ;;
  requestRender ;;
  t <- new ;;
  store f_renderTimer (set_renderTimer t) ;;
  act (Connect "timeout") ;;
  act TimerSetType ;;
  act (TimerSetInterval MIN_TIMER_MS) ;;
  act TimerStart.

Definition onRender : M unit :=
  q <- load _quit ;;
  if q then ret tt
  else
    QMutexLocker
      (sr <- load _syncRequested ;;
       (if sr then
          act MutexUnlock ;;
          act RenderControlPolishItems ;;
          act MutexLock ;;
          postEvent ToRenderObject Render NormalEventPriority ;;
          wait
        else postEvent ToRenderObject Render NormalEventPriority) ;;
       store f_renderRequested (set_renderRequested false)).

(** [now] is [usecTimestampNow()]. *)
Definition onTimer (now : Z) : M unit :=
  act Report ;;
  rr <- load _renderRequested ;;
  if negb rr then ret tt
  else
    pending <- QMutexLocker (l <- load _latestTextureAndFence ;;
                             ret (negb (0 =? fst l))) ;;
    if pending then ret tt
    else
      fps <- load _maxFps ;;
      if fps =? 0 then undefined
      else
        let minRenderInterval := USECS_PER_SECOND / fps in
        last <- load _lastRenderTime ;;
        let lastInterval := uint64 (now - last) in
        if lastInterval <? minRenderInterval then ret tt
        else postEvent ToThis Render NormalEventPriority.

Definition onAboutToQuit : M unit := destroy.

Definition updateTextureAndFence (newTextureAndFence : TextureAndFence) : M unit :=
  QMutexLocker
    (l <- load _latestTextureAndFence ;;
     when (nonnull (fst l))
       (act (ReleaseTexture l) ;;
        store f_latestTextureAndFence (set_latestTextureAndFence noTexture)) ;;
     store f_latestTextureAndFence (set_latestTextureAndFence newTextureAndFence)).

Definition pause : M unit := store f_paused (set_paused true).

Definition resume : M unit :=
  store f_paused (set_paused false) ;;
  requestRender.

Definition isPaused : M bool := load _paused.

(** [baseResult] is what [QObject::event(e)] returns. *)
Definition event (e : OffscreenEventType) (baseResult : bool) : M bool :=
  match e with
  | Initialize => onInitialize ;; ret true
  | Render => onRender ;; ret true
  | _ => act QObjectEvent ;; ret baseResult
  end.

(** ** Observations on traces *)

(** The frames handed back to the texture cache, in order. *)
Fixpoint released (tr : list Action) : list TextureAndFence :=
  match tr with
  | [] => []
  | ReleaseTexture tf :: r => tf :: released r
  | _ :: r => released r
  end.

(** The events posted, in order. *)
Fixpoint posted (tr : list Action) : list (Receiver * OffscreenEventType * EventPriority) :=
  match tr with
  | [] => []
  | PostEvent to e p :: r => (to, e, p) :: posted r
  | _ :: r => posted r
  end.

(** The number of [_cond.wakeOne()] calls. *)
Fixpoint wakes (tr : list Action) : nat :=
  match tr with
  | [] => 0%nat
  | CondWakeOne :: r => S (wakes r)
  | _ :: r => wakes r
  end.

(** The members assigned, in order. *)
Fixpoint stores (tr : list Action) : list Field :=
  match tr with
  | [] => []
  | Store f :: r => f :: stores r
  | _ :: r => stores r
  end.

(** The frame held in [_latestTextureAndFence], if its texture is not 0. *)
Definition holding (s : SharedObject) : option TextureAndFence :=
  if nonnull (fst (_latestTextureAndFence s))
  then Some (_latestTextureAndFence s) else None.

Definition opt_list {A} (o : option A) : list A :=
  match o with Some a => [a] | None => [] end.

(** ** The frame mailbox: sequences of publish and fetch *)

Inductive MailboxOp :=
| Publish (f : TextureAndFence)     (* render thread: updateTextureAndFence *)
| Fetch.                            (* consumer: fetchTexture *)

Inductive MailboxResult :=
| Published
| Fetched (f : TextureAndFence)     (* fetchTexture returned true *)
| Empty.                            (* fetchTexture returned false *)

(** A frame carries a real texture name; 0 is the null sentinel. *)
Definition valid_op (op : MailboxOp) : Prop :=
  match op with Publish f => fst f <> 0 | Fetch => True end.

Definition mailbox_step (op : MailboxOp) : M MailboxResult :=
  match op with
  | Publish f => updateTextureAndFence f ;; ret Published
  | Fetch =>
      r <- fetchTexture noTexture ;;
      ret (if fst r then Fetched (snd r) else Empty)
  end.

Fixpoint mailbox_run (ops : list MailboxOp) : M (list MailboxResult) :=
  match ops with
  | [] => ret []
  | op :: rest =>
      x <- mailbox_step op ;;
      xs <- mailbox_run rest ;;
      ret (x :: xs)
  end.

Fixpoint published (ops : list MailboxOp) : list TextureAndFence :=
  match ops with
  | [] => []
  | Publish f :: r => f :: published r
  | Fetch :: r => published r
  end.

Fixpoint fetched (res : list MailboxResult) : list TextureAndFence :=
  match res with
  | [] => []
  | Fetched f :: r => f :: fetched r
  | _ :: r => fetched r
  end.

(** The mailbox as the specification words it: one slot; publish recycles
    what the slot held and stores the new frame; fetch takes what the slot
    holds and leaves it empty. *)
Module FrameMailbox.

Definition Frame := TextureAndFence.

(** [publish f slot]: the frames returned to the pool, and the new slot. *)
Definition publish (f : Frame) (slot : option Frame) : list Frame * option Frame :=
  (opt_list slot, Some f).

(** [fetch slot]: what the consumer gets, and the new slot. *)
Definition fetch (slot : option Frame) : option Frame * option Frame :=
  (slot, None).

(** The frame pending after [ops]: the one published last, unless a fetch
    came after it. *)
Fixpoint pending (slot : option Frame) (ops : list MailboxOp) : option Frame :=
  match ops with
  | [] => slot
  | Publish f :: r => pending (snd (publish f slot)) r
  | Fetch :: r => pending (snd (fetch slot)) r
  end.

Fixpoint results (slot : option Frame) (ops : list MailboxOp) : list MailboxResult :=
  match ops with
  | [] => []
  | Publish f :: r => Published :: results (snd (publish f slot)) r
  | Fetch :: r =>
      match fst (fetch slot) with Some f => Fetched f | None => Empty end
      :: results (snd (fetch slot)) r
  end.

Fixpoint recycled (slot : option Frame) (ops : list MailboxOp) : list Frame :=
  match ops with
  | [] => []
  | Publish f :: r => fst (publish f slot) ++ recycled (snd (publish f slot)) r
  | Fetch :: r => recycled (snd (fetch slot)) r
  end.

End FrameMailbox.

(** ** Every member function as a call *)

Inductive Call :=
| call_setSharedContext (sharedContext current : Ptr)
| call_getSharedContext
| call_create (hasIncubationController : bool)
| call_setRootItem (rootItem : Ptr) (windowSize : QSize)
| call_destroy
| call_initializeRenderControl (shareContext : Ptr) (nsight : bool)
| call_releaseTextureAndFence
| call_setRenderTarget (fbo : Z) (size : QSize)
| call_getSize
| call_setSize (size : QSize)
| call_preRender (nsight syncOutcome : bool)
| call_shutdownRendering (size : QSize)
| call_isQuit
| call_requestRender
| call_requestRenderSync
| call_fetchTexture (textureAndFence : TextureAndFence)
| call_setProxyWindow (window : Ptr)
| call_wait
| call_wake
| call_onInitialize
| call_onRender
| call_onTimer (now : Z)
| call_onAboutToQuit
| call_updateTextureAndFence (newTextureAndFence : TextureAndFence)
| call_pause
| call_resume
| call_isPaused
| call_event (e : OffscreenEventType) (baseResult : bool).

Definition run_call (c : Call) : M unit :=
  match c with
  | call_setSharedContext sc cur => setSharedContext sc cur
  | call_getSharedContext => getSharedContext ;; ret tt
  | call_create h => create h
  | call_setRootItem r w => setRootItem r w
  | call_destroy => destroy
  | call_initializeRenderControl sc n => initializeRenderControl sc n
  | call_releaseTextureAndFence => releaseTextureAndFence
  | call_setRenderTarget fbo sz => setRenderTarget fbo sz
  | call_getSize => getSize ;; ret tt
  | call_setSize sz => setSize sz
  | call_preRender n o => preRender n o ;; ret tt
  | call_shutdownRendering sz => shutdownRendering sz
  | call_isQuit => isQuit ;; ret tt
  | call_requestRender => requestRender
  | call_requestRenderSync => requestRenderSync
  | call_fetchTexture tf => fetchTexture tf ;; ret tt
  | call_setProxyWindow w => setProxyWindow w
  | call_wait => wait
  | call_wake => wake
  | call_onInitialize => onInitialize
  | call_onRender => onRender
  | call_onTimer now => onTimer now
  | call_onAboutToQuit => onAboutToQuit
  | call_updateTextureAndFence tf => updateTextureAndFence tf
  | call_pause => pause
  | call_resume => resume
  | call_isPaused => isPaused ;; ret tt
  | call_event e b => event e b ;; ret tt
  end.

(** ** Mutex discipline on traces *)

(** [locked_stores guarded held tr]: every assignment in [tr] to a member in
    [guarded] is made with [_mutex] held, where [held] says whether it is
    held when [tr] starts.  [_cond.wait(&_mutex)] returns with the mutex
    held again. *)
Fixpoint locked_stores (guarded : Field -> bool) (held : bool)
  (tr : list Action) : bool :=
  match tr with
  | [] => true
  | MutexLock :: r => locked_stores guarded true r
  | MutexUnlock :: r => locked_stores guarded false r
  | Store f :: r => (held || negb (guarded f)) && locked_stores guarded held r
  | _ :: r => locked_stores guarded held r
  end.

(** The members the specification places under the mutex: the [SyncState]
    flags and [Size]. *)
Definition SyncState_and_Size (f : Field) : bool :=
  match f with
  | f_paused | f_quit | f_syncRequested | f_renderRequested | f_size => true
  | _ => false
  end.

(** The members every assignment of which is made under the mutex. *)
Definition mutex_guarded (f : Field) : bool :=
  match f with
  | f_quit | f_syncRequested | f_size | f_latestTextureAndFence => true
  | _ => false
  end.

(** ** Abort conditions *)

(** The calls and states in which [qFatal] is reached. *)
Definition aborts (c : Call) (s : SharedObject) : Prop :=
  match c with
  | call_initializeRenderControl shareContext _ =>
      shareContext <> appSharedContext s
  | call_create _ => _rootItem s <> nullptr
  | call_setSharedContext sharedContext current => current <> sharedContext
  | _ => False
  end.

(** How many times member [f] is assigned in [tr]. *)
Definition stored (f : Field) (tr : list Action) : nat :=
  List.length (filter (Field_eqb f) (stores tr)).

(** ** Shutdown *)

Definition is_ThreadWait (a : Action) : bool :=
  match a with ThreadWait => true | _ => false end.

(** Calls that hand a resource back to the texture cache. *)
Definition is_pool_release (a : Action) : bool :=
  match a with ReleaseTexture _ | ReleaseSize _ => true | _ => false end.

Definition occurrences (p : Action -> bool) (tr : list Action) : nat :=
  List.length (filter p tr).

Definition destroy_trace (s : SharedObject) : list Action :=
  [Store f_paused] ++
  (if nonnull (_renderTimer s)
   then [Disconnect "_renderTimer"; DeleteLaterTimer] else []) ++
  [Disconnect "_renderControl"; Disconnect "qApp";
   MutexLock; Store f_quit;
   PostEvent ToRenderObject Quit HighEventPriority; MutexUnlock;
   ThreadWait].

(** Two outcomes end the same way and make the same calls. *)
Definition same_calls (a b : Outcome unit) : Prop :=
  match a, b with
  | Done _ _ t1, Done _ _ t2 => t1 = t2
  | Fatal m1, Fatal m2 => m1 = m2
  | Undefined, Undefined => True
  | _, _ => False
  end.

(** ** Frames outside the texture cache *)

Fixpoint remove_nth {A} (n : nat) (l : list A) : list A :=
  match n, l with
  | _, [] => []
  | O, _ :: r => r
  | S m, a :: r => a :: remove_nth m r
  end.

Module Engine.

(** Modelled from the spec: the parties that hold frames around the object.
    The render worker (RenderEventHandler.cpp), the texture cache
    (TextureCache.cpp) and the consumer are not among the sources at hand.
    Per the specification the worker handles one Render command at a time, in
    which it acquires one frame from the pool, draws and publishes it; the
    consumer owns what it fetched until it releases it back to the pool. *)
Record t := mk {
  shared : SharedObject;
  inFlight : option TextureAndFence;   (* acquired by the worker, not yet published *)
  claimed : list TextureAndFence;      (* fetched by the consumer, not yet released *)
  issued : list TextureAndFence;       (* every frame the pool has handed out *)
  pooled : list TextureAndFence        (* every frame handed back to the pool *)
}.

(** Modelled from the spec: what the worker and the consumer do with
    frames. *)
Inductive Op :=
| Acquire (f : TextureAndFence) (* worker: a Render command takes [f] from the pool *)
| PublishFrame                  (* worker: updateTextureAndFence on its frame *)
| Recycle                       (* worker: releaseTextureAndFence *)
| FetchFrame                    (* consumer: fetchTexture *)
| ReleaseFrame (n : nat).       (* consumer: returns its n-th frame to the pool *)

(** Modelled from the spec: [Acquire] and [ReleaseFrame] stand for
    TexturePool acquire and release, which are absent from the sources; the
    other three steps run the member functions of SharedObject.cpp and log
    what these release. *)
Definition step (op : Op) (e : t) : option t :=
  match op with
  | Acquire f =>
      match inFlight e with
      | None =>
          if nonnull (fst f)
          then Some (mk (shared e) (Some f) (claimed e) (f :: issued e) (pooled e))
          else None
      | Some _ => None
      end
  | PublishFrame =>
      match inFlight e with
      | Some f =>
          match updateTextureAndFence f (shared e) with
          | Done _ s' tr =>
              Some (mk s' None (claimed e) (issued e) (released tr ++ pooled e))
          | _ => None
          end
      | None => None
      end
  | Recycle =>
      match releaseTextureAndFence (shared e) with
      | Done _ s' tr =>
          Some (mk s' (inFlight e) (claimed e) (issued e) (released tr ++ pooled e))
      | _ => None
      end
  | FetchFrame =>
      match fetchTexture noTexture (shared e) with
      | Done (true, f) s' tr =>
          Some (mk s' (inFlight e) (f :: claimed e) (issued e)
                  (released tr ++ pooled e))
      | Done (false, _) s' tr =>
          Some (mk s' (inFlight e) (claimed e) (issued e) (released tr ++ pooled e))
      | _ => None
      end
  | ReleaseFrame n =>
      match nth_error (claimed e) n with
      | Some f =>
          Some (mk (shared e) (inFlight e) (remove_nth n (claimed e)) (issued e)
                  (f :: pooled e))
      | None => None
      end
  end.

Fixpoint run (ops : list Op) (e : t) : option t :=
  match ops with
  | [] => Some e
  | op :: rest =>
      match step op e with
      | Some e' => run rest e'
      | None => None
      end
  end.

Definition start (s : SharedObject) : t := mk s None [] [] [].

(** TextureAndFences live outside the pool: handed out and not handed back. *)
Definition outside (e : t) : nat :=
  (List.length (issued e) - List.length (pooled e))%nat.

(** Every frame handed out is back in the pool, in flight on the worker,
    in the mailbox, or with the consumer. *)
Definition accounted (e : t) : Prop :=
  Permutation (issued e)
    (pooled e ++ opt_list (inFlight e) ++ opt_list (holding (shared e)) ++
     claimed e)
  /\ (forall f, inFlight e = Some f -> fst f <> 0).

End Engine.

(** ** Further observations on traces and calls *)

(** The protocol of the non-recursive [QMutex] along a trace: [None] when
    the trace locks the mutex while it holds it, unlocks it while it does
    not hold it, waits on the condition without holding it, or blocks in
    [_renderThread->wait()] while holding it; otherwise whether the mutex is
    held at the end. *)
Fixpoint mutex_protocol (held : bool) (tr : list Action) : option bool :=
  match tr with
  | [] => Some held
  | MutexLock :: r => if held then None else mutex_protocol true r
  | MutexUnlock :: r => if held then mutex_protocol false r else None
  | CondWait :: r => if held then mutex_protocol true r else None
  | ThreadWait :: r => if held then None else mutex_protocol false r
  | _ :: r => mutex_protocol held r
  end.

(** The number of [_cond.wait(&_mutex)] calls. *)
Fixpoint waits (tr : list Action) : nat :=
  match tr with
  | [] => 0%nat
  | CondWait :: r => S (waits r)
  | _ :: r => waits r
  end.

(** Every [_cond.wait] in the trace comes after a Render event has been
    posted to the render object ([seen] says whether one has been posted
    already). *)
Fixpoint render_posted_before_wait (seen : bool) (tr : list Action) : bool :=
  match tr with
  | [] => true
  | PostEvent ToRenderObject Render _ :: r => render_posted_before_wait true r
  | CondWait :: r => seen && render_posted_before_wait seen r
  | _ :: r => render_posted_before_wait seen r
  end.

(** [destroy], directly or through [onAboutToQuit]. *)
Definition is_shutdown_call (c : Call) : bool :=
  match c with
  | call_destroy | call_onAboutToQuit => true
  | _ => false
  end.

(** [n] calls of [m] in a row. *)
Fixpoint repeat_call (n : nat) (m : M unit) : M unit :=
  match n with
  | O => ret tt
  | S k => m ;; repeat_call k m
  end.

Definition is_ReleaseSize (a : Action) : bool :=
  match a with ReleaseSize _ => true | _ => false end.

(** [held_during p held tr]: every action of [tr] that satisfies [p] is
    made while [_mutex] is held, where [held] says whether it is held when
    [tr] starts. *)
Fixpoint held_during (p : Action -> bool) (held : bool) (tr : list Action) : bool :=
  match tr with
  | [] => true
  | MutexLock :: r => held_during p true r
  | MutexUnlock :: r => held_during p false r
  | a :: r => (held || negb (p a)) && held_during p held r
  end.

(** What [shutdownRendering] does between taking and releasing the mutex. *)
Definition is_shutdown_work (a : Action) : bool :=
  match a with
  | ReleaseSize _ | RenderControlInvalidate | CanvasDoneCurrent | CondWakeOne => true
  | _ => false
  end.

(** ** Concrete states and runs used in the examples *)

Definition sample_object : SharedObject := constructed (100, 100) 60.

Definition sample_ops : list MailboxOp :=
  [Publish (7, 1); Publish (8, 2); Fetch; Fetch; Publish (9, 3)].

Definition rooted_object : SharedObject :=
  match (create false ;; setRootItem 4096 (100, 100)) sample_object with
  | Done _ s _ => s
  | _ => sample_object
  end.

Definition sync_pending_object : SharedObject :=
  set_renderRequested true (set_syncRequested true rooted_object).

Definition render_requested_object : SharedObject :=
  set_renderRequested true rooted_object.

Definition three_renders : list Engine.Op :=
  [Engine.Acquire (7, 1); Engine.PublishFrame; Engine.FetchFrame;
   Engine.Acquire (8, 2); Engine.PublishFrame; Engine.FetchFrame;
   Engine.Acquire (9, 3); Engine.PublishFrame].

Definition after_three_renders : Engine.t :=
  Engine.mk (set_latestTextureAndFence (9, 3) sample_object) None
    [(8, 2); (7, 1)] [(9, 3); (8, 2); (7, 1)] [].

(** * Properties *)

Lemma QSize_eqb_eq a b : QSize_eqb a b = true <-> a = b.
Proof.
  destruct a as [w1 h1], b as [w2 h2]; unfold QSize_eqb; simpl.
  rewrite andb_true_iff, !Z.eqb_eq. split.
  - intros [-> ->]; reflexivity.
  - intros E; inversion E; auto.
Qed.

Lemma QSize_eqb_refl a : QSize_eqb a a = true.
Proof. apply QSize_eqb_eq; reflexivity. Qed.

Lemma QSize_eqb_neq a b : a <> b -> QSize_eqb a b = false.
Proof.
  intros N. destruct (QSize_eqb a b) eqn:E; [|reflexivity].
  apply QSize_eqb_eq in E. contradiction.
Qed.

Lemma released_app t1 t2 : released (t1 ++ t2) = released t1 ++ released t2.
Proof.
  induction t1 as [|a t1 IH]; simpl; [reflexivity|].
  destruct a; simpl; rewrite IH; reflexivity.
Qed.

(** ** Step equations of the mailbox functions *)

Lemma updateTextureAndFence_run f s :
  updateTextureAndFence f s =
  Done tt (set_latestTextureAndFence f s)
    (MutexLock ::
     match holding s with
     | Some old => [ReleaseTexture old; Store f_latestTextureAndFence]
     | None => []
     end ++ [Store f_latestTextureAndFence; MutexUnlock]).
Proof.
  unfold updateTextureAndFence, QMutexLocker, holding, bind, load, when, act,
    store, ret.
  destruct (nonnull (fst (_latestTextureAndFence s))); reflexivity.
Qed.

Lemma fetchTexture_run out s :
  fetchTexture out s =
  match holding s with
  | Some f => Done (true, f) (set_latestTextureAndFence noTexture s)
                [MutexLock; Store f_latestTextureAndFence; MutexUnlock]
  | None => Done (false, out) s [MutexLock; MutexUnlock]
  end.
Proof.
  unfold fetchTexture, QMutexLocker, holding, nonnull, bind, load, act, store,
    ret.
  rewrite (Z.eqb_sym 0).
  destruct (fst (_latestTextureAndFence s) =? 0); reflexivity.
Qed.

Lemma releaseTextureAndFence_run s :
  releaseTextureAndFence s =
  match holding s with
  | Some f => Done tt (set_latestTextureAndFence noTexture s)
                [MutexLock; ReleaseTexture f; Store f_latestTextureAndFence;
                 MutexUnlock]
  | None => Done tt s [MutexLock; MutexUnlock]
  end.
Proof.
  unfold releaseTextureAndFence, QMutexLocker, holding, bind, load, when, act,
    store, ret.
  destruct (nonnull (fst (_latestTextureAndFence s))); reflexivity.
Qed.

Lemma holding_set f s :
  holding (set_latestTextureAndFence f s) = if nonnull (fst f) then Some f else None.
Proof. reflexivity. Qed.

(** ** Sequences of mailbox calls *)

Lemma valid_nonnull (f : TextureAndFence) : fst f <> 0 -> nonnull (fst f) = true.
Proof. intros H. unfold nonnull. apply negb_true_iff, Z.eqb_neq, H. Qed.

Lemma pending_publish_last slot ops f :
  FrameMailbox.pending slot (ops ++ [Publish f]) = Some f.
Proof.
  revert slot. induction ops as [|[g|] ops IH]; intros slot; simpl; auto.
Qed.

Lemma pending_fetch_last slot ops :
  FrameMailbox.pending slot (ops ++ [Fetch]) = None.
Proof.
  revert slot. induction ops as [|[g|] ops IH]; intros slot; simpl; auto.
Qed.

Lemma mailbox_step_publish f s :
  mailbox_step (Publish f) s =
  Done Published (set_latestTextureAndFence f s)
    (MutexLock :: opt_list (option_map ReleaseTexture (holding s)) ++
     match holding s with Some _ => [Store f_latestTextureAndFence] | None => [] end ++
     [Store f_latestTextureAndFence; MutexUnlock]).
Proof.
  unfold mailbox_step, bind. rewrite updateTextureAndFence_run.
  destruct (holding s); reflexivity.
Qed.

Lemma mailbox_step_fetch s :
  mailbox_step Fetch s =
  match holding s with
  | Some g => Done (Fetched g) (set_latestTextureAndFence noTexture s)
                [MutexLock; Store f_latestTextureAndFence; MutexUnlock]
  | None => Done Empty s [MutexLock; MutexUnlock]
  end.
Proof.
  unfold mailbox_step, bind. rewrite fetchTexture_run.
  destruct (holding s); reflexivity.
Qed.

Lemma mailbox_run_cons op ops s x s1 t1 xs s2 t2 :
  mailbox_step op s = Done x s1 t1 ->
  mailbox_run ops s1 = Done xs s2 t2 ->
  mailbox_run (op :: ops) s = Done (x :: xs) s2 (t1 ++ t2).
Proof.
  intros H1 H2. simpl. unfold bind. rewrite H1, H2. simpl.
  rewrite app_nil_r. reflexivity.
Qed.

(** C1.  Latest-wins contract of the frame mailbox.  For every sequence of
    publish ([updateTextureAndFence]) and fetch ([fetchTexture]) calls whose
    published frames carry a non-null texture, started in any state: the run
    returns normally; every fetch returns what the one-slot mailbox of the
    specification returns (the frame published last if no fetch came after
    it, nothing otherwise); every publish gives the frame it supersedes back
    to the texture cache; every frame that entered is exactly one of released
    to the cache, fetched, or the single frame still held, so at most one
    unclaimed frame exists; a publish made after the run releases the
    pending frame, if any, before it stores the new one; and a fetch made
    after the run returns the pending frame (or false, leaving the caller's
    variable alone) and leaves the mailbox empty without releasing
    anything. *)
Theorem mailbox_latest_wins (ops : list MailboxOp) (s : SharedObject) :
  Forall valid_op ops ->
  exists res s' tr,
    mailbox_run ops s = Done res s' tr /\
    res = FrameMailbox.results (holding s) ops /\
    holding s' = FrameMailbox.pending (holding s) ops /\
    released tr = FrameMailbox.recycled (holding s) ops /\
    Permutation (opt_list (holding s) ++ published ops)
                (released tr ++ fetched res ++ opt_list (holding s')) /\
    (List.length (opt_list (holding s')) <= 1)%nat /\
    (forall f,
       updateTextureAndFence f s' =
         Done tt (set_latestTextureAndFence f s')
           (MutexLock ::
            match FrameMailbox.pending (holding s) ops with
            | Some old => [ReleaseTexture old; Store f_latestTextureAndFence]
            | None => []
            end ++ [Store f_latestTextureAndFence; MutexUnlock])) /\
    forall out, exists s'' tr',
      fetchTexture out s' =
        Done (match FrameMailbox.pending (holding s) ops with
              | Some f => (true, f)
              | None => (false, out)
              end) s'' tr' /\
      holding s'' = None /\ released tr' = [].
Proof.
  revert s. induction ops as [|op ops IH]; intros s Hv.
  - exists [], s, []. simpl. repeat split; auto.
    + rewrite app_nil_r. apply Permutation_refl.
    + destruct (holding s); simpl; lia.
    + intros f. apply updateTextureAndFence_run.
    + intros out. rewrite fetchTexture_run.
      destruct (holding s) as [f|] eqn:Hh; eauto.
  - inversion Hv as [|? ? Hop Hrest]; subst.
    destruct op as [f|]; simpl in Hop.
    + (* publish *)
      pose proof (mailbox_step_publish f s) as Hu.
      destruct (IH (set_latestTextureAndFence f s) Hrest)
        as (res & s' & tr & Hrun & Hres & Hpend & Hrel & Hperm & Hlen & Hpub & Hfetch).
      rewrite holding_set, (valid_nonnull f Hop) in *.
      eexists (Published :: res), s', _. split.
      { exact (mailbox_run_cons _ _ _ _ _ _ _ _ _ Hu Hrun). }
      simpl. rewrite !released_app, Hrel. simpl.
      repeat split; auto.
      * rewrite Hres. reflexivity.
      * destruct (holding s) as [old|]; reflexivity.
      * rewrite <- Hrel.
        destruct (holding s) as [old|]; simpl in *;
          [apply perm_skip|]; exact Hperm.
    + (* fetch *)
      destruct (holding s) as [g|] eqn:Hh.
      * destruct (IH (set_latestTextureAndFence noTexture s) Hrest)
          as (res & s' & tr & Hrun & Hres & Hpend & Hrel & Hperm & Hlen & Hpub & Hfetch).
        rewrite holding_set in *. simpl in *.
        pose proof (mailbox_step_fetch s) as Hf. rewrite Hh in Hf.
        eexists (Fetched g :: res), s', _. split.
        { exact (mailbox_run_cons _ _ _ _ _ _ _ _ _ Hf Hrun). }
        simpl. repeat split; auto.
        -- rewrite Hres. reflexivity.
        -- apply Permutation_cons_app. exact Hperm.
      * destruct (IH s Hrest)
          as (res & s' & tr & Hrun & Hres & Hpend & Hrel & Hperm & Hlen & Hpub & Hfetch).
        rewrite Hh in *. simpl in *.
        pose proof (mailbox_step_fetch s) as Hf. rewrite Hh in Hf.
        eexists (Empty :: res), s', _. split.
        { exact (mailbox_run_cons _ _ _ _ _ _ _ _ _ Hf Hrun). }
        simpl. repeat split; auto.
        rewrite Hres. reflexivity.
Qed.

Lemma mailbox_latest_wins_witness :
  Forall valid_op sample_ops /\
  exists res s' tr,
    mailbox_run sample_ops sample_object = Done res s' tr /\
    res = FrameMailbox.results (holding sample_object) sample_ops /\
    holding s' = FrameMailbox.pending (holding sample_object) sample_ops /\
    released tr = FrameMailbox.recycled (holding sample_object) sample_ops /\
    Permutation (opt_list (holding sample_object) ++ published sample_ops)
                (released tr ++ fetched res ++ opt_list (holding s')) /\
    (List.length (opt_list (holding s')) <= 1)%nat /\
    (forall f,
       updateTextureAndFence f s' =
         Done tt (set_latestTextureAndFence f s')
           (MutexLock ::
            match FrameMailbox.pending (holding sample_object) sample_ops with
            | Some old => [ReleaseTexture old; Store f_latestTextureAndFence]
            | None => []
            end ++ [Store f_latestTextureAndFence; MutexUnlock])) /\
    forall out, exists s'' tr',
      fetchTexture out s' =
        Done (match FrameMailbox.pending (holding sample_object) sample_ops with
              | Some f => (true, f)
              | None => (false, out)
              end) s'' tr' /\
      holding s'' = None /\ released tr' = [].
Proof.
  assert (V : Forall valid_op sample_ops).
  { repeat constructor; simpl; lia. }
  split; [exact V | exact (mailbox_latest_wins sample_ops sample_object V)].
Defined.

Example sample_ops_results :
  mailbox_run sample_ops sample_object =
  Done [Published; Published; Fetched (8, 2); Empty; Published]
       (set_latestTextureAndFence (9, 3) sample_object)
       [MutexLock; Store f_latestTextureAndFence; MutexUnlock;
        MutexLock; ReleaseTexture (7, 1); Store f_latestTextureAndFence;
        Store f_latestTextureAndFence; MutexUnlock;
        MutexLock; Store f_latestTextureAndFence; MutexUnlock;
        MutexLock; MutexUnlock;
        MutexLock; Store f_latestTextureAndFence; MutexUnlock].
Proof. reflexivity. Qed.

(** ** Symbolic execution of the member functions *)

Ltac unfold_members :=
  unfold run_call, setSharedContext, getSharedContext, create, acquireEngine,
    setRootItem, onAboutToQuit, destroy, initializeRenderControl,
    releaseTextureAndFence, setRenderTarget, setSize, getSize,
    requestRenderSync, requestRender, preRender, shutdownRendering, isQuit,
    fetchTexture, setProxyWindow, event, onInitialize, onRender, onTimer,
    updateTextureAndFence, pause, resume, isPaused, wait, wake,
    QMutexLocker, postEvent, when, new, bind, load, act, store, track, qFatal,
    undefined, ret.

Ltac step_if :=
  match goal with
  | |- context [if ?b then _ else _] => destruct b eqn:?
  end.

Ltac execute :=
  unfold_members;
  cbn -[Z.div Z.modulo Z.pow Z.eqb Z.ltb uint64 QSize_eqb nonnull];
  repeat (step_if; cbn -[Z.div Z.modulo Z.pow Z.eqb Z.ltb uint64 QSize_eqb nonnull]).

(** C3 (as amended).  Whatever member function is called, in whatever
    state and with whatever inputs, every assignment it makes to [_quit],
    [_syncRequested], [_size] or [_latestTextureAndFence] is made while
    [_mutex] is held. *)
Theorem guarded_members_stored_under_mutex (c : Call) (s : SharedObject) :
  match run_call c s with
  | Done _ _ tr => locked_stores mutex_guarded false tr = true
  | Fatal _ => True
  | Undefined => True
  end.
Proof.
  destruct c; try destruct e; execute; auto.
Qed.

(** C3, counterexample.  [requestRender], called on a freshly constructed
    object, assigns [_renderRequested] and never touches the mutex: not every
    mutation of the [SyncState] flags is made under it. *)
Lemma requestRender_stores_without_mutex :
  run_call call_requestRender sample_object =
    Done tt (set_renderRequested true sample_object) [Store f_renderRequested]
  /\ locked_stores SyncState_and_Size false [Store f_renderRequested] = false.
Proof. split; reflexivity. Qed.

(** C8 (as amended).  A member function ends in [qFatal] exactly when it is
    [initializeRenderControl] with a context whose share context differs from
    the registered shared context, [create] while a root item is already set,
    or [setSharedContext] with a context that is not the current one.  In
    particular [setRootItem] never aborts. *)
Theorem qFatal_exactly_when (c : Call) (s : SharedObject) :
  (exists msg, run_call c s = Fatal msg) <-> aborts c s.
Proof.
  split.
  - intros [msg H]. revert H.
    destruct c; try destruct e; unfold aborts, nullptr; execute;
      try discriminate; intros _;
      match goal with
      | H : negb (_ =? _) = true |- _ =>
          apply negb_true_iff, Z.eqb_neq in H; exact H
      | H : nonnull _ = true |- _ =>
          apply negb_true_iff, Z.eqb_neq in H; exact H
      end.
  - destruct c; simpl; try contradiction; intros H.
    + exists "The shared context must be the current context when setting"%string.
      apply Z.eqb_neq in H. unfold_members. simpl. rewrite H. reflexivity.
    + exists "QML surface root item already set"%string.
      unfold nullptr in H. apply Z.eqb_neq in H. unfold_members.
      unfold nonnull. rewrite H. reflexivity.
    + exists "QML rendering context has no share context"%string.
      apply Z.eqb_neq in H. unfold_members. cbn -[Z.eqb]. rewrite H.
      reflexivity.
Qed.

(** C8, counterexample.  On an object whose root item is already set,
    assigning a root item again with [setRootItem] returns normally and
    overwrites [_rootItem]: the process does not abort. *)
Lemma setRootItem_twice_returns :
  _rootItem rooted_object = 4096 /\
  run_call (call_setRootItem 8192 (100, 100)) rooted_object =
    Done tt
      (set_nextAddress 7%positive
        (set_renderObject 6 (set_renderThread 5 (set_rootItem 8192 rooted_object))))
      [Store f_rootItem; RootItemSetSize (100, 100); Store f_renderThread;
       ThreadSetObjectName; ThreadStart; Store f_renderObject;
       PostEvent ToThis Initialize NormalEventPriority;
       Connect "renderRequested"; Connect "sceneChanged"].
Proof. split; reflexivity. Qed.

(** ** Requests *)

(** C10.  Once [_quit] is set, [requestRenderSync] returns at once: no
    member is assigned ([_syncRequested] and [_renderRequested] keep their
    values), the mutex is not taken and nothing is posted. *)
Theorem requestRenderSync_after_quit (s : SharedObject) :
  _quit s = true ->
  requestRenderSync s = Done tt s [].
Proof. intros H. unfold_members. rewrite H. reflexivity. Qed.

Lemma requestRenderSync_after_quit_witness :
  _quit (set_quit true sample_object) = true /\
  requestRenderSync (set_quit true sample_object) =
    Done tt (set_quit true sample_object) [].
Proof.
  split; [reflexivity|].
  apply (requestRenderSync_after_quit (set_quit true sample_object)).
  reflexivity.
Defined.

Lemma set_renderRequested_same s :
  _renderRequested s = true -> set_renderRequested true s = s.
Proof. destruct s; simpl; intros ->; reflexivity. Qed.

Lemma requestRender_run s :
  requestRender s =
  Done tt (set_renderRequested true s)
    (if _renderRequested s then [] else [Store f_renderRequested]).
Proof.
  unfold_members. destruct (_renderRequested s) eqn:E; [|reflexivity].
  rewrite (set_renderRequested_same s E). reflexivity.
Qed.

Lemma requestRenderSync_run s :
  requestRenderSync s =
  if _quit s then Done tt s []
  else Done tt (set_renderRequested true (set_syncRequested true s))
         ([MutexLock; Store f_syncRequested; MutexUnlock] ++
          if _renderRequested s then [] else [Store f_renderRequested]).
Proof.
  destruct s as [l r c w o t th lr sz fps rr sr q p asc na].
  unfold_members. cbn. destruct q, rr; reflexivity.
Qed.

(** ** The pre-render step *)

(** C2.  When the pre-render step runs unpaused with [_syncRequested] set
    and [_renderControl->sync()] is called and fails, it wakes the waiter on
    the condition variable once, returns false (no frame is produced for this
    cycle) and assigns nothing: [_syncRequested] stays set, so the next
    pre-render step syncs again, and clears the flag once sync succeeds. *)
Theorem preRender_sync_failure (s : SharedObject) :
  _paused s = false ->
  _syncRequested s = true ->
  preRender false false s =
    Done false s [MutexLock; RenderControlSync; CondWakeOne; MutexUnlock]
  /\ wakes [MutexLock; RenderControlSync; CondWakeOne; MutexUnlock] = 1%nat
  /\ preRender false true s =
       Done true (set_syncRequested false s)
         [MutexLock; RenderControlSync; CondWakeOne; Store f_syncRequested;
          MutexUnlock].
Proof.
  intros Hp Hs. unfold_members. rewrite Hp, Hs. repeat split.
Qed.

Lemma preRender_sync_failure_witness :
  preRender false false sync_pending_object =
    Done false sync_pending_object
      [MutexLock; RenderControlSync; CondWakeOne; MutexUnlock]
  /\ wakes [MutexLock; RenderControlSync; CondWakeOne; MutexUnlock] = 1%nat
  /\ preRender false true sync_pending_object =
       Done true (set_syncRequested false sync_pending_object)
         [MutexLock; RenderControlSync; CondWakeOne; Store f_syncRequested;
          MutexUnlock].
Proof.
  apply (preRender_sync_failure sync_pending_object); reflexivity.
Defined.

(** [_renderControl->sync()] is called by the pre-render step exactly when
    the object is not paused, a sync is requested and nsight is inactive. *)
Lemma preRender_calls_sync_iff (s : SharedObject) (nsight syncOutcome : bool) :
  exists r s' tr,
    preRender nsight syncOutcome s = Done r s' tr /\
    (In RenderControlSync tr <->
     _paused s = false /\ _syncRequested s = true /\ nsight = false).
Proof.
  unfold_members.
  destruct (_paused s), (_syncRequested s), nsight, syncOutcome; cbn;
    do 3 eexists; (split; [reflexivity|]); cbn;
    intuition (try discriminate; auto).
Qed.

(** ** Resizing *)

Lemma setSize_run (size : QSize) (s : SharedObject) :
  setSize size s =
  if QSize_eqb (_size s) size then Done tt s [MutexLock; MutexUnlock]
  else
    Done tt
      (if _quit s then set_size size s
       else set_renderRequested true (set_syncRequested true (set_size size s)))
      ([MutexLock; MutexUnlock; MutexLock; Store f_size; MutexUnlock;
        WindowSetGeometry size; ContentItemSetSize size] ++
       (if nonnull (_rootItem s)
        then [ContextSetProperty "surfaceSize"; RootItemSetSize size] else []) ++
       (if _quit s then []
        else [MutexLock; Store f_syncRequested; MutexUnlock] ++
             if _renderRequested s then [] else [Store f_renderRequested])).
Proof.
  destruct s as [l r c w o t th lr sz fps rr sr q p asc na].
  unfold_members. cbn -[QSize_eqb nonnull].
  destruct (QSize_eqb sz size); [reflexivity|].
  cbn -[nonnull]. destruct (nonnull r), q, rr; reflexivity.
Qed.

(** C4 (as amended).  [setSize] with the current size assigns nothing and
    requests nothing (it only reads [_size] under the mutex).  [setSize] with
    a different size assigns [_size] once, under the mutex, and sets the
    geometry of the window and the size of its content item; it passes the
    size to the root item exactly when one is set; and, unless [_quit] is
    set, it makes one request for a render with sync ([_syncRequested] is
    assigned once), after which [_syncRequested] and [_renderRequested] are
    both set.  When [_quit] is set the size is still assigned and propagated
    and no request is made.  Nothing is posted either way. *)
Theorem setSize_behaviour (size : QSize) (s : SharedObject) :
  (_size s = size -> setSize size s = Done tt s [MutexLock; MutexUnlock]) /\
  (_size s <> size ->
   exists tr,
     setSize size s =
       Done tt
         (if _quit s then set_size size s
          else set_renderRequested true (set_syncRequested true (set_size size s)))
         tr /\
     locked_stores mutex_guarded false tr = true /\
     stored f_size tr = 1%nat /\
     In (WindowSetGeometry size) tr /\
     In (ContentItemSetSize size) tr /\
     (In (RootItemSetSize size) tr <-> _rootItem s <> nullptr) /\
     stored f_syncRequested tr = (if _quit s then 0 else 1)%nat /\
     posted tr = []).
Proof.
  split; intros H; rewrite setSize_run.
  - rewrite H, QSize_eqb_refl. reflexivity.
  - rewrite (QSize_eqb_neq _ _ H). eexists. split; [reflexivity|].
    unfold nonnull, nullptr.
    destruct (Z.eqb_spec (_rootItem s) 0) as [E|E];
      destruct (_quit s), (_renderRequested s); cbn;
      repeat split; auto; try tauto;
      intuition (try discriminate; try congruence).
Qed.

Lemma setSize_behaviour_witness :
  setSize (100, 100) sample_object = Done tt sample_object [MutexLock; MutexUnlock]
  /\ exists tr,
     setSize (200, 200) rooted_object =
       Done tt
         (set_renderRequested true
            (set_syncRequested true (set_size (200, 200) rooted_object))) tr /\
     locked_stores mutex_guarded false tr = true /\
     stored f_size tr = 1%nat /\
     In (WindowSetGeometry (200, 200)) tr /\
     In (ContentItemSetSize (200, 200)) tr /\
     (In (RootItemSetSize (200, 200)) tr <-> _rootItem rooted_object <> nullptr) /\
     stored f_syncRequested tr = 1%nat /\
     posted tr = [].
Proof.
  split.
  - apply (proj1 (setSize_behaviour (100, 100) sample_object)). reflexivity.
  - apply (proj2 (setSize_behaviour (200, 200) rooted_object)).
    simpl. discriminate.
Defined.

(** C4, counterexample.  Once [_quit] is set, [setSize] with a new size
    assigns and propagates the size but requests nothing: [_syncRequested]
    and [_renderRequested] stay clear. *)
Lemma setSize_after_quit_requests_nothing :
  let s := set_quit true rooted_object in
  _size s = (100, 100) /\
  setSize (200, 200) s =
    Done tt (set_size (200, 200) s)
      [MutexLock; MutexUnlock; MutexLock; Store f_size; MutexUnlock;
       WindowSetGeometry (200, 200); ContentItemSetSize (200, 200);
       ContextSetProperty "surfaceSize"; RootItemSetSize (200, 200)] /\
  _syncRequested (set_size (200, 200) s) = false /\
  _renderRequested (set_size (200, 200) s) = false.
Proof. repeat split. Qed.

Lemma destroy_run (s : SharedObject) :
  destroy s =
  if _quit s then Done tt s []
  else if nonnull (_rootItem s)
       then Done tt (set_quit true (set_paused true s)) (destroy_trace s)
       else Done tt s [DeleteLaterThis].
Proof.
  unfold destroy_trace. unfold_members. cbn -[nonnull].
  destruct (_quit s); [reflexivity|].
  destruct (nonnull (_rootItem s)); [|reflexivity].
  cbn -[nonnull]. destruct (nonnull (_renderTimer s)); reflexivity.
Qed.

(** C5 (as amended).  On an object whose root item is set and that is not
    yet quitting, [destroy] sets [_paused] and [_quit], posts Quit to the
    render object once, with high priority, and waits for the render thread
    once, releasing nothing to the texture cache; a second [destroy] then
    does nothing at all, so calling it twice leaves the same state and the
    same calls as calling it once.  On an object without a root item
    [destroy] only asks for the deletion of the object: [_quit] stays clear,
    nothing is posted, and a second call asks again. *)
Theorem destroy_idempotent (s : SharedObject) :
  (_rootItem s <> nullptr -> _quit s = false ->
   let s1 := set_quit true (set_paused true s) in
   destroy s = Done tt s1 (destroy_trace s) /\
   destroy s1 = Done tt s1 [] /\
   (destroy ;; destroy) s = Done tt s1 (destroy_trace s) /\
   _quit s1 = true /\ _paused s1 = true /\
   posted (destroy_trace s) = [(ToRenderObject, Quit, HighEventPriority)] /\
   occurrences is_ThreadWait (destroy_trace s) = 1%nat /\
   occurrences is_pool_release (destroy_trace s) = 0%nat) /\
  (_rootItem s = nullptr -> _quit s = false ->
   destroy s = Done tt s [DeleteLaterThis] /\
   (destroy ;; destroy) s = Done tt s [DeleteLaterThis; DeleteLaterThis]).
Proof.
  unfold nullptr. split; intros Hr Hq.
  - assert (Hn : nonnull (_rootItem s) = true).
    { unfold nonnull. apply negb_true_iff, Z.eqb_neq, Hr. }
    assert (H1 : destroy s =
                 Done tt (set_quit true (set_paused true s)) (destroy_trace s)).
    { rewrite destroy_run, Hq, Hn. reflexivity. }
    assert (H2 : destroy (set_quit true (set_paused true s)) =
                 Done tt (set_quit true (set_paused true s)) []).
    { rewrite destroy_run. reflexivity. }
    cbv zeta. repeat split; auto.
    + unfold bind. rewrite H1, H2, app_nil_r. reflexivity.
    + unfold destroy_trace. destruct (nonnull (_renderTimer s)); reflexivity.
    + unfold destroy_trace. destruct (nonnull (_renderTimer s)); reflexivity.
    + unfold destroy_trace. destruct (nonnull (_renderTimer s)); reflexivity.
  - assert (Hn : nonnull (_rootItem s) = false).
    { unfold nonnull. rewrite Hr. reflexivity. }
    assert (H1 : destroy s = Done tt s [DeleteLaterThis]).
    { rewrite destroy_run, Hq, Hn. reflexivity. }
    split; [exact H1|]. unfold bind. rewrite H1, H1. reflexivity.
Qed.

Lemma destroy_idempotent_witness :
  (let s1 := set_quit true (set_paused true rooted_object) in
   destroy rooted_object = Done tt s1 (destroy_trace rooted_object) /\
   destroy s1 = Done tt s1 [] /\
   (destroy ;; destroy) rooted_object = Done tt s1 (destroy_trace rooted_object) /\
   _quit s1 = true /\ _paused s1 = true /\
   posted (destroy_trace rooted_object) =
     [(ToRenderObject, Quit, HighEventPriority)] /\
   occurrences is_ThreadWait (destroy_trace rooted_object) = 1%nat /\
   occurrences is_pool_release (destroy_trace rooted_object) = 0%nat) /\
  (destroy sample_object = Done tt sample_object [DeleteLaterThis] /\
   (destroy ;; destroy) sample_object =
     Done tt sample_object [DeleteLaterThis; DeleteLaterThis]).
Proof.
  split.
  - apply (proj1 (destroy_idempotent rooted_object)).
    + simpl. unfold nullptr. lia.
    + reflexivity.
  - apply (proj2 (destroy_idempotent sample_object)); reflexivity.
Defined.

(** C5, counterexample.  On a freshly constructed object (no root item),
    two calls of [destroy] leave [_quit] clear and post no Quit, and the
    second call is not a no-op: it asks for the deletion of the object once
    more. *)
Lemma destroy_twice_without_root :
  (destroy ;; destroy) sample_object =
    Done tt sample_object [DeleteLaterThis; DeleteLaterThis] /\
  destroy sample_object = Done tt sample_object [DeleteLaterThis] /\
  _quit sample_object = false /\
  posted [DeleteLaterThis; DeleteLaterThis] = [].
Proof. repeat split. Qed.

(** ** Frame pacing *)

Lemma onTimer_run (now : Z) (s : SharedObject) :
  onTimer now s =
  if negb (_renderRequested s) then Done tt s [Report]
  else if nonnull (fst (_latestTextureAndFence s))
       then Done tt s [Report; MutexLock; MutexUnlock]
       else if _maxFps s =? 0 then Undefined
            else if uint64 (now - _lastRenderTime s) <?
                    USECS_PER_SECOND / _maxFps s
                 then Done tt s [Report; MutexLock; MutexUnlock]
                 else Done tt s [Report; MutexLock; MutexUnlock;
                                 PostEvent ToThis Render NormalEventPriority].
Proof.
  unfold_members. unfold nonnull.
  cbn -[Z.div Z.modulo Z.pow Z.eqb Z.ltb uint64].
  destruct (_renderRequested s); [|reflexivity].
  cbn -[Z.div Z.modulo Z.pow Z.eqb Z.ltb uint64].
  rewrite (Z.eqb_sym 0).
  destruct (fst (_latestTextureAndFence s) =? 0); [|reflexivity].
  cbn -[Z.div Z.modulo Z.pow Z.eqb Z.ltb uint64].
  destruct (_maxFps s =? 0); [reflexivity|].
  destruct (uint64 (now - _lastRenderTime s) <? USECS_PER_SECOND / _maxFps s);
    reflexivity.
Qed.

(** What a timer tick computes.  With a positive [_maxFps] it returns
    normally and assigns no member; it posts one Render event to the object
    itself unless no render is requested, or [_latestTextureAndFence] holds a
    texture, or [lastInterval < minRenderInterval] as the code evaluates
    them. *)
Theorem onTimer_guard (now : Z) (s : SharedObject) :
  0 < _maxFps s ->
  exists tr,
    onTimer now s = Done tt s tr /\
    stores tr = [] /\
    posted tr =
      if negb (_renderRequested s)
         || nonnull (fst (_latestTextureAndFence s))
         || (uint64 (now - _lastRenderTime s) <? USECS_PER_SECOND / _maxFps s)
      then []
      else [(ToThis, Render, NormalEventPriority)].
Proof.
  intros Hfps. rewrite onTimer_run.
  assert (E : (_maxFps s =? 0) = false) by (apply Z.eqb_neq; lia).
  rewrite E.
  destruct (negb (_renderRequested s)); [eexists; repeat split|].
  destruct (nonnull (fst (_latestTextureAndFence s))); [eexists; repeat split|].
  destruct (uint64 (now - _lastRenderTime s) <? USECS_PER_SECOND / _maxFps s);
    eexists; repeat split.
Qed.


(** ** Pause and resume *)

Lemma preRender_paused_run (nsight syncOutcome : bool) (s : SharedObject) :
  _paused s = true ->
  preRender nsight syncOutcome s =
    Done false s
      (MutexLock :: (if _syncRequested s then [CondWakeOne] else []) ++
       [MutexUnlock]).
Proof.
  intros H. unfold_members. rewrite H. destruct (_syncRequested s); reflexivity.
Qed.

Lemma onRender_run (s : SharedObject) :
  onRender s =
  if _quit s then Done tt s []
  else Done tt (set_renderRequested false s)
         (MutexLock ::
          (if _syncRequested s
           then [MutexUnlock; RenderControlPolishItems; MutexLock;
                 PostEvent ToRenderObject Render NormalEventPriority; CondWait]
           else [PostEvent ToRenderObject Render NormalEventPriority]) ++
          [Store f_renderRequested; MutexUnlock]).
Proof.
  unfold_members. destruct (_quit s); [reflexivity|].
  destruct (_syncRequested s); reflexivity.
Qed.

(** C9 (as amended).  [pause] only sets [_paused]: it wakes nobody and
    posts nothing.  The timer tick and [onRender] make the same calls,
    Render events included, whether or not the object is paused.  While
    [_paused] is set the pre-render step assigns nothing and returns false,
    so no frame is produced, and it wakes the waiter on the condition
    variable exactly when a sync is requested.  [resume] clears [_paused]
    and requests a render: [_renderRequested] is set afterwards. *)
Theorem pause_resume_behaviour (s : SharedObject) :
  pause s = Done tt (set_paused true s) [Store f_paused] /\
  (forall now, same_calls (onTimer now s) (onTimer now (set_paused true s))) /\
  same_calls (onRender s) (onRender (set_paused true s)) /\
  (forall nsight syncOutcome,
     preRender nsight syncOutcome (set_paused true s) =
       Done false (set_paused true s)
         (MutexLock :: (if _syncRequested s then [CondWakeOne] else []) ++
          [MutexUnlock])) /\
  resume s =
    Done tt (set_renderRequested true (set_paused false s))
      (Store f_paused :: if _renderRequested s then [] else [Store f_renderRequested]).
Proof.
  split; [reflexivity|]. split; [|split; [|split]].
  - intros now. rewrite !onTimer_run. simpl.
    destruct (negb (_renderRequested s)); simpl; auto.
    destruct (nonnull (fst (_latestTextureAndFence s))); simpl; auto.
    destruct (_maxFps s =? 0); simpl; auto.
    destruct (uint64 (now - _lastRenderTime s) <? USECS_PER_SECOND / _maxFps s);
      simpl; auto.
  - rewrite !onRender_run. simpl.
    destruct (_quit s); simpl; auto.
  - intros nsight syncOutcome.
    rewrite preRender_paused_run by reflexivity. reflexivity.
  - destruct s as [l r c w o t th lr sz fps rr sr q p asc na].
    unfold_members. cbn. destruct rr; reflexivity.
Qed.

(** C9, counterexample.  With a render requested, [pause] followed by a
    timer tick and by the handling of the Render event it posts leaves the
    object paused, and two Render events have been posted meanwhile: one to
    the object itself, one to the render object. *)
Lemma render_posted_while_paused :
  (pause ;; onTimer 1000000 ;; onRender) render_requested_object =
    Done tt (set_renderRequested false (set_paused true render_requested_object))
      [Store f_paused; Report; MutexLock; MutexUnlock;
       PostEvent ToThis Render NormalEventPriority;
       MutexLock; PostEvent ToRenderObject Render NormalEventPriority;
       Store f_renderRequested; MutexUnlock] /\
  _paused (set_renderRequested false (set_paused true render_requested_object))
    = true.
Proof. split; reflexivity. Qed.

Lemma Frame_eq_dec (a b : TextureAndFence) : {a = b} + {a <> b}.
Proof. decide equality; apply Z.eq_dec. Defined.

Lemma remove_nth_count {A} (dec : forall a b : A, {a = b} + {a <> b})
  (l : list A) (n : nat) (f x : A) :
  nth_error l n = Some f ->
  count_occ dec l x = (count_occ dec [f] x + count_occ dec (remove_nth n l) x)%nat.
Proof.
  revert n. induction l as [|a l IH]; intros [|n] H; simpl in H; try discriminate.
  - inversion H; subst. simpl. destruct (dec f x); lia.
  - specialize (IH n H). simpl in *.
    destruct (dec a x), (dec f x); lia.
Qed.

Ltac count_frames x :=
  repeat match goal with
         | H : Permutation _ _ |- _ =>
             let H' := fresh "Hcount" in
             pose proof (proj1 (Permutation_count_occ Frame_eq_dec _ _) H x) as H';
             clear H
         end;
  simpl in *;
  repeat first [rewrite count_occ_app in * | progress simpl in *];
  repeat match goal with
         | |- context [Frame_eq_dec ?a ?b] => destruct (Frame_eq_dec a b)
         | H : context [Frame_eq_dec ?a ?b] |- _ => destruct (Frame_eq_dec a b)
         end;
  try lia.

Lemma step_accounted (op : Engine.Op) (e e' : Engine.t) :
  Engine.accounted e -> Engine.step op e = Some e' -> Engine.accounted e'.
Proof.
  destruct e as [s fl cl iss pl]. unfold Engine.accounted. simpl.
  intros [HP HV] Hstep. destruct op as [f| | | |n]; simpl in Hstep.
  - (* Acquire *)
    destruct fl as [g|]; [discriminate|].
    destruct (nonnull (fst f)) eqn:Hf; [|discriminate].
    inversion Hstep; subst; clear Hstep. simpl. split.
    + apply (Permutation_count_occ Frame_eq_dec). intros x. count_frames x.
    + intros f0 E. inversion E; subst.
      apply negb_true_iff, Z.eqb_neq in Hf. exact Hf.
  - (* PublishFrame *)
    destruct fl as [f|]; [|discriminate].
    rewrite updateTextureAndFence_run in Hstep.
    inversion Hstep; subst; clear Hstep. simpl.
    rewrite holding_set, (valid_nonnull f (HV f eq_refl)).
    split; [|intros ? E; discriminate].
    apply (Permutation_count_occ Frame_eq_dec). intros x.
    destruct (holding s) as [old|]; count_frames x.
  - (* Recycle *)
    rewrite releaseTextureAndFence_run in Hstep.
    destruct (holding s) as [old|] eqn:Hh;
      inversion Hstep; subst; clear Hstep; simpl;
      rewrite ?holding_set, ?Hh; simpl; (split; [|exact HV]).
    + apply (Permutation_count_occ Frame_eq_dec). intros x. count_frames x.
    + exact HP.
  - (* FetchFrame *)
    rewrite fetchTexture_run in Hstep.
    destruct (holding s) as [g|] eqn:Hh;
      inversion Hstep; subst; clear Hstep; simpl;
      rewrite ?holding_set, ?Hh; simpl; (split; [|exact HV]).
    + apply (Permutation_count_occ Frame_eq_dec). intros x.
      destruct fl; count_frames x.
    + exact HP.
  - (* ReleaseFrame *)
    destruct (nth_error cl n) as [f|] eqn:Hn; [|discriminate].
    inversion Hstep; subst; clear Hstep. simpl. split; [|exact HV].
    apply (Permutation_count_occ Frame_eq_dec). intros x.
    pose proof (remove_nth_count Frame_eq_dec cl n f x Hn) as Hc.
    count_frames x.
Qed.

Lemma run_accounted (ops : list Engine.Op) (e e' : Engine.t) :
  Engine.accounted e -> Engine.run ops e = Some e' -> Engine.accounted e'.
Proof.
  revert e. induction ops as [|op ops IH]; intros e Ha Hr; simpl in Hr.
  - inversion Hr; subst; exact Ha.
  - destruct (Engine.step op e) as [e1|] eqn:Hs; [|discriminate].
    apply (IH e1); [eapply step_accounted; eauto | exact Hr].
Qed.

Lemma start_accounted (s : SharedObject) :
  holding s = None -> Engine.accounted (Engine.start s).
Proof.
  intros H. unfold Engine.accounted, Engine.start. simpl. rewrite H.
  split; [constructor | intros ? E; discriminate].
Qed.

(** C7 (as amended).  In every state the engine reaches from an object
    with an empty mailbox, the frames outside the pool are exactly the one in
    flight on the worker (at most one), the one held in the mailbox (at most
    one) and those the consumer has fetched and not yet released: apart from
    the consumer's frames, at most 2 frames are outside the pool. *)
Theorem frames_outside_pool_bounded (ops : list Engine.Op) (s : SharedObject)
  (e : Engine.t) :
  holding s = None ->
  Engine.run ops (Engine.start s) = Some e ->
  Engine.outside e =
    (List.length (opt_list (Engine.inFlight e)) +
     List.length (opt_list (holding (Engine.shared e))) +
     List.length (Engine.claimed e))%nat /\
  (List.length (opt_list (Engine.inFlight e)) <= 1)%nat /\
  (List.length (opt_list (holding (Engine.shared e))) <= 1)%nat /\
  (Engine.outside e <= 2 + List.length (Engine.claimed e))%nat.
Proof.
  intros Hs Hrun.
  destruct (run_accounted ops _ e (start_accounted s Hs) Hrun) as [HP _].
  apply Permutation_length in HP. rewrite !length_app in HP.
  unfold Engine.outside.
  destruct (Engine.inFlight e), (holding (Engine.shared e)); simpl in *; lia.
Qed.

Lemma frames_outside_pool_bounded_witness :
  holding sample_object = None /\
  Engine.run three_renders (Engine.start sample_object) = Some after_three_renders /\
  Engine.outside after_three_renders =
    (List.length (opt_list (Engine.inFlight after_three_renders)) +
     List.length (opt_list (holding (Engine.shared after_three_renders))) +
     List.length (Engine.claimed after_three_renders))%nat /\
  (List.length (opt_list (Engine.inFlight after_three_renders)) <= 1)%nat /\
  (List.length (opt_list (holding (Engine.shared after_three_renders))) <= 1)%nat /\
  (Engine.outside after_three_renders
   <= 2 + List.length (Engine.claimed after_three_renders))%nat.
Proof.
  assert (H0 : holding sample_object = None) by reflexivity.
  assert (H1 : Engine.run three_renders (Engine.start sample_object)
               = Some after_three_renders) by reflexivity.
  split; [exact H0|]. split; [exact H1|].
  exact (frames_outside_pool_bounded three_renders sample_object
           after_three_renders H0 H1).
Defined.

(** C7, counterexample.  Three renders, the first two fetched by the
    consumer, each started while the mailbox is empty: the consumer owns two
    frames and the mailbox holds the third, so three frames are outside the
    pool and none has been handed back. *)
Lemma three_frames_outside_pool :
  Engine.run three_renders (Engine.start sample_object) = Some after_three_renders /\
  Engine.outside after_three_renders = 3%nat /\
  Engine.pooled after_three_renders = [] /\
  ~ (Engine.outside after_three_renders <= 2)%nat.
Proof.
  repeat split. simpl. unfold Engine.outside. simpl. lia.
Qed.

(** * Further properties of the member functions *)

(** ** The mutex protocol *)

(** X1.  Whatever member function other than the bare [wait] helper is
    called with the mutex free, in whatever state: it never locks the
    non-recursive mutex while holding it, never unlocks it while not holding
    it, waits on the condition only while holding it, never blocks in
    [_renderThread->wait()] while holding it, and has released it when it
    returns. *)
Theorem mutex_protocol_respected (c : Call) (s : SharedObject) :
  c <> call_wait ->
  match run_call c s with
  | Done _ _ tr => mutex_protocol false tr = Some false
  | Fatal _ => True
  | Undefined => True
  end.
Proof.
  intros Hc. destruct c; try destruct e; try (exfalso; apply Hc; reflexivity);
    execute; auto.
Qed.

Lemma mutex_protocol_respected_witness :
  call_onRender <> call_wait /\
  match run_call call_onRender sync_pending_object with
  | Done _ _ tr => mutex_protocol false tr = Some false
  | Fatal _ => True
  | Undefined => True
  end.
Proof.
  assert (H : call_onRender <> call_wait) by discriminate.
  split; [exact H | exact (mutex_protocol_respected call_onRender sync_pending_object H)].
Defined.

(** ** The quit flag *)

(** X2.  No member function ever clears [_quit], and it becomes set only
    by [destroy] (directly or through [onAboutToQuit]) on an object whose
    root item is set. *)
Theorem quit_set_only_by_destroy (c : Call) (s : SharedObject) :
  match run_call c s with
  | Done _ s' _ =>
      _quit s' = _quit s || (is_shutdown_call c && nonnull (_rootItem s))
  | Fatal _ => True
  | Undefined => True
  end.
Proof.
  assert (D : match destroy s with
              | Done _ s' _ => _quit s' = _quit s || (true && nonnull (_rootItem s))
              | _ => True
              end).
  { rewrite destroy_run. destruct (_quit s) eqn:Q; simpl; [exact Q|].
    destruct (nonnull (_rootItem s)); simpl; auto. }
  destruct c; try destruct e; try exact D;
    destruct s as [l r cx w o t th lr sz fps rr sr q p asc na];
    execute; rewrite ?andb_false_l, ?orb_false_r; auto.
Qed.

(** ** The mailbox slot across all member functions *)

(** X3.  Whatever member function is called: the only texture it can hand
    back to the texture cache is the one the mailbox held when it was called,
    and at most once; and [_latestTextureAndFence] keeps its value unless the
    call is [updateTextureAndFence] (which stores its argument) or the slot is
    emptied by [fetchTexture] or [releaseTextureAndFence]. *)
Theorem mailbox_slot_owners (c : Call) (s : SharedObject) :
  match run_call c s with
  | Done _ s' tr =>
      (released tr = [] \/ released tr = opt_list (holding s)) /\
      (_latestTextureAndFence s' = _latestTextureAndFence s \/
       c = call_updateTextureAndFence (_latestTextureAndFence s') \/
       (_latestTextureAndFence s' = noTexture /\
        (c = call_releaseTextureAndFence \/
         exists out, c = call_fetchTexture out)))
  | Fatal _ => True
  | Undefined => True
  end.
Proof.
  destruct c; try destruct e;
    try (execute; simpl; auto; fail).
  - (* releaseTextureAndFence *)
    simpl. rewrite releaseTextureAndFence_run.
    destruct (holding s); simpl; auto 6.
  - (* fetchTexture *)
    simpl. unfold bind. rewrite fetchTexture_run.
    destruct (holding s); simpl; eauto 8.
  - (* updateTextureAndFence *)
    simpl. rewrite updateTextureAndFence_run.
    destruct (holding s); simpl; auto.
Qed.

(** X4.  [releaseTextureAndFence] hands the held frame, if any, back to the
    texture cache and empties the mailbox; calling it again releases nothing
    and changes nothing, and a fetch after it finds nothing and leaves the
    caller's variable alone. *)
Theorem releaseTextureAndFence_idempotent (s : SharedObject) :
  exists s1 tr1,
    releaseTextureAndFence s = Done tt s1 tr1 /\
    released tr1 = opt_list (holding s) /\
    holding s1 = None /\
    releaseTextureAndFence s1 = Done tt s1 [MutexLock; MutexUnlock] /\
    forall out, fetchTexture out s1 = Done (false, out) s1 [MutexLock; MutexUnlock].
Proof.
  rewrite releaseTextureAndFence_run.
  destruct (holding s) as [f|] eqn:Hh.
  - exists (set_latestTextureAndFence noTexture s). eexists.
    split; [reflexivity|]. repeat split.
  - exists s. eexists. split; [reflexivity|]. repeat split; auto.
    + rewrite releaseTextureAndFence_run, Hh. reflexivity.
    + intros out. rewrite fetchTexture_run, Hh. reflexivity.
Qed.

(** ** The sync rendezvous *)

Lemma preRender_run (nsight syncOutcome : bool) (s : SharedObject) :
  preRender nsight syncOutcome s =
  let ok := negb (_paused s) &&
            (negb (_syncRequested s) || nsight || syncOutcome) in
  Done ok
    (if ok && _syncRequested s then set_syncRequested false s else s)
    (MutexLock ::
     (if negb (_paused s) && _syncRequested s && negb nsight
      then [RenderControlSync] else []) ++
     (if _syncRequested s then [CondWakeOne] else []) ++
     (if ok && _syncRequested s then [Store f_syncRequested] else []) ++
     [MutexUnlock]).
Proof.
  unfold_members.
  destruct (_paused s), (_syncRequested s), nsight, syncOutcome; reflexivity.
Qed.

(** X5.  When each side of the rendezvous acts.  [onRender] on an object
    that is not quitting posts exactly one Render event to the render object,
    and it waits on the condition exactly when it found [_syncRequested] set,
    and only after that event has been posted.  The pre-render step, in
    whatever state it runs, calls [wakeOne] exactly when it finds
    [_syncRequested] set, whether the object is paused or not and whether
    sync succeeds or not. *)
Theorem wait_and_wake_conditions (s r : SharedObject) (nsight syncOutcome : bool) :
  _quit s = false ->
  exists s1 t1 b s2 t2,
    onRender s = Done tt s1 t1 /\
    waits t1 = (if _syncRequested s then 1 else 0)%nat /\
    render_posted_before_wait false t1 = true /\
    posted t1 = [(ToRenderObject, Render, NormalEventPriority)] /\
    preRender nsight syncOutcome r = Done b s2 t2 /\
    wakes t2 = (if _syncRequested r then 1 else 0)%nat.
Proof.
  intros Hq. rewrite onRender_run, Hq, preRender_run.
  do 5 eexists. split; [reflexivity|].
  split; [destruct (_syncRequested s); reflexivity|].
  split; [destruct (_syncRequested s); reflexivity|].
  split; [destruct (_syncRequested s); reflexivity|].
  split; [reflexivity|].
  destruct (_paused r), (_syncRequested r), nsight, syncOutcome; reflexivity.
Qed.

Lemma wait_and_wake_conditions_witness :
  exists s1 t1 b s2 t2,
    onRender sync_pending_object = Done tt s1 t1 /\
    waits t1 = (if _syncRequested sync_pending_object then 1 else 0)%nat /\
    render_posted_before_wait false t1 = true /\
    posted t1 = [(ToRenderObject, Render, NormalEventPriority)] /\
    preRender false false (set_paused true sync_pending_object) = Done b s2 t2 /\
    wakes t2 =
      (if _syncRequested (set_paused true sync_pending_object) then 1 else 0)%nat.
Proof.
  apply (wait_and_wake_conditions sync_pending_object
           (set_paused true sync_pending_object) false false).
  reflexivity.
Defined.

(** X6.  The pre-render step returns true exactly when the object is not
    paused and either no sync is requested, or nsight is active, or sync
    succeeds.  It clears [_syncRequested] exactly when the flag was set and it
    returns true, changes nothing else, and calls [sync] only when it is not
    paused, a sync is requested and nsight is inactive. *)
Theorem preRender_outcome (nsight syncOutcome : bool) (s : SharedObject) :
  exists r s' tr,
    preRender nsight syncOutcome s = Done r s' tr /\
    r = negb (_paused s) && (negb (_syncRequested s) || nsight || syncOutcome) /\
    s' = (if r && _syncRequested s then set_syncRequested false s else s) /\
    _syncRequested s' = _syncRequested s && negb r /\
    stores tr = (if r && _syncRequested s then [f_syncRequested] else []) /\
    (In RenderControlSync tr <->
     _paused s = false /\ _syncRequested s = true /\ nsight = false).
Proof.
  rewrite preRender_run. cbv zeta. do 3 eexists.
  split; [reflexivity|]. split; [reflexivity|]. split; [reflexivity|].
  destruct (_paused s), (_syncRequested s) eqn:E, nsight, syncOutcome; cbn;
    rewrite ?E; repeat split; auto;
    intuition (try discriminate; auto).
Qed.

(** ** Render requests *)

Lemma repeat_requestRender_run (n : nat) (s : SharedObject) :
  _renderRequested s = true ->
  repeat_call n requestRender s = Done tt s [].
Proof.
  intros H. induction n as [|n IH]; simpl; [reflexivity|].
  unfold bind. rewrite requestRender_run, H, (set_renderRequested_same s H), IH.
  reflexivity.
Qed.

(** X7.  Render requests coalesce: one or more calls of [requestRender] in
    a row leave exactly the state one call leaves, assign
    [_renderRequested] once if it was clear and never if it was set, and post
    nothing. *)
Theorem requestRender_coalesces (n : nat) (s : SharedObject) :
  exists tr,
    repeat_call (S n) requestRender s = Done tt (set_renderRequested true s) tr /\
    tr = (if _renderRequested s then [] else [Store f_renderRequested]) /\
    posted tr = [].
Proof.
  simpl. unfold bind. rewrite requestRender_run.
  rewrite (repeat_requestRender_run n (set_renderRequested true s)) by reflexivity.
  rewrite app_nil_r. eexists. split; [reflexivity|].
  destruct (_renderRequested s); split; reflexivity.
Qed.

(** X8.  [onRender] consumes the request: on an object that is not
    quitting it posts one Render event to the render object and clears
    [_renderRequested], so a timer tick that follows, at whatever time and
    whatever [_maxFps] is, posts nothing until a render is requested again. *)
Theorem onRender_consumes_request (now : Z) (s : SharedObject) :
  _quit s = false ->
  exists tr,
    (onRender ;; onTimer now) s = Done tt (set_renderRequested false s) tr /\
    posted tr = [(ToRenderObject, Render, NormalEventPriority)] /\
    onTimer now (set_renderRequested false s) =
      Done tt (set_renderRequested false s) [Report].
Proof.
  intros Hq.
  assert (Ht : onTimer now (set_renderRequested false s) =
               Done tt (set_renderRequested false s) [Report]).
  { rewrite onTimer_run. reflexivity. }
  unfold bind. rewrite onRender_run, Hq, Ht.
  eexists. split; [reflexivity|]. split; [|reflexivity].
  destruct (_syncRequested s); reflexivity.
Qed.

Lemma onRender_consumes_request_witness :
  exists tr,
    (onRender ;; onTimer 1000000) render_requested_object =
      Done tt (set_renderRequested false render_requested_object) tr /\
    posted tr = [(ToRenderObject, Render, NormalEventPriority)] /\
    onTimer 1000000 (set_renderRequested false render_requested_object) =
      Done tt (set_renderRequested false render_requested_object) [Report].
Proof.
  apply (onRender_consumes_request 1000000 render_requested_object).
  reflexivity.
Defined.

(** X9.  [resume] re-arms rendering: after it the object is not paused and
    a render is requested, so a timer tick that finds the mailbox empty and
    the frame interval elapsed posts a Render event to the object. *)
Theorem resume_rearms (now : Z) (s : SharedObject) :
  fst (_latestTextureAndFence s) = 0 ->
  0 < _maxFps s ->
  USECS_PER_SECOND / _maxFps s <= uint64 (now - _lastRenderTime s) ->
  exists s' tr,
    (resume ;; onTimer now) s = Done tt s' tr /\
    _paused s' = false /\ _renderRequested s' = true /\
    posted tr = [(ToThis, Render, NormalEventPriority)].
Proof.
  intros Hl Hf Hi.
  assert (Hr : resume s =
               Done tt (set_renderRequested true (set_paused false s))
                 (Store f_paused ::
                  if _renderRequested s then [] else [Store f_renderRequested])).
  { destruct s as [l r c w o t th lr sz fps rr sr q p asc na].
    unfold_members. cbn. destruct rr; reflexivity. }
  assert (Ht : onTimer now (set_renderRequested true (set_paused false s)) =
               Done tt (set_renderRequested true (set_paused false s))
                 [Report; MutexLock; MutexUnlock;
                  PostEvent ToThis Render NormalEventPriority]).
  { rewrite onTimer_run. simpl. unfold nonnull. rewrite Hl. simpl.
    replace (_maxFps s =? 0) with false by (symmetry; apply Z.eqb_neq; lia).
    replace (uint64 (now - _lastRenderTime s) <? USECS_PER_SECOND / _maxFps s)
      with false by (symmetry; apply Z.ltb_ge; exact Hi).
    reflexivity. }
  unfold bind. rewrite Hr, Ht. do 2 eexists. split; [reflexivity|].
  repeat split. destruct (_renderRequested s); reflexivity.
Qed.

Lemma resume_rearms_witness :
  exists s' tr,
    (resume ;; onTimer 20000) (set_paused true rooted_object) = Done tt s' tr /\
    _paused s' = false /\ _renderRequested s' = true /\
    posted tr = [(ToThis, Render, NormalEventPriority)].
Proof.
  apply (resume_rearms 20000 (set_paused true rooted_object)).
  - reflexivity.
  - simpl. lia.
  - vm_compute. discriminate.
Defined.

(** ** Size *)

(** X10.  [setSize] and [getSize] round-trip in every state, quitting or
    not: after [setSize size] the object's size is [size], [getSize] returns
    it, and a second [setSize size] only reads the size under the mutex. *)
Theorem setSize_getSize_round_trip (size : QSize) (s : SharedObject) :
  exists s1 tr1,
    setSize size s = Done tt s1 tr1 /\
    getSize s1 = Done size s1 [MutexLock; MutexUnlock] /\
    setSize size s1 = Done tt s1 [MutexLock; MutexUnlock].
Proof.
  assert (G : forall x, getSize x = Done (_size x) x [MutexLock; MutexUnlock])
    by reflexivity.
  rewrite setSize_run. destruct (QSize_eqb (_size s) size) eqn:E.
  - apply QSize_eqb_eq in E. do 2 eexists. split; [reflexivity|].
    split; [rewrite G, E; reflexivity|].
    rewrite setSize_run, E, QSize_eqb_refl. reflexivity.
  - do 2 eexists. split; [reflexivity|].
    split.
    + rewrite G. destruct (_quit s); reflexivity.
    + rewrite setSize_run.
      replace (QSize_eqb _ size) with true; [reflexivity|].
      symmetry. destruct (_quit s); apply QSize_eqb_refl.
Qed.

(** X11.  [_size] changes only through [setSize].  [_syncRequested] is set
    only by [requestRenderSync], directly or through [setSize], and cleared
    only by the pre-render step. *)
Theorem size_and_sync_owners (c : Call) (s : SharedObject) :
  match run_call c s with
  | Done _ s' _ =>
      (_size s' = _size s \/ c = call_setSize (_size s')) /\
      (_syncRequested s' = _syncRequested s \/
       (_syncRequested s' = true /\
        (c = call_requestRenderSync \/ exists size, c = call_setSize size)) \/
       (_syncRequested s' = false /\
        exists nsight syncOutcome, c = call_preRender nsight syncOutcome))
  | Fatal _ => True
  | Undefined => True
  end.
Proof.
  destruct c; try destruct e;
    try (execute; simpl; auto; fail).
  - (* setSize *)
    simpl. rewrite setSize_run.
    destruct (QSize_eqb (_size s) size); [simpl; auto|].
    destruct (_quit s); simpl; eauto 8.
  - (* preRender *)
    simpl. unfold bind. rewrite preRender_run. cbv zeta.
    destruct (_paused s), (_syncRequested s) eqn:E, nsight, syncOutcome; cbn;
      rewrite ?E; eauto 8.
  - (* requestRenderSync *)
    simpl. rewrite requestRenderSync_run.
    destruct (_quit s); simpl; auto 6.
Qed.

(** ** Frame pacing: the division *)

(** X12.  The timer tick divides by a zero [_maxFps] exactly when a render
    is requested, the mailbox is empty and [_maxFps] is 0: with a non-zero
    [_maxFps], or while either guard makes the tick return early, the
    division is defined or not reached.  No other member function
    divides. *)
Theorem division_by_zero_exactly_when (c : Call) (s : SharedObject) :
  run_call c s = Undefined <->
  (exists now, c = call_onTimer now) /\
  _renderRequested s = true /\
  fst (_latestTextureAndFence s) = 0 /\
  _maxFps s = 0.
Proof.
  split.
  - destruct c; try destruct e;
      try (execute; discriminate).
    simpl. rewrite onTimer_run. unfold nonnull.
    destruct (_renderRequested s); simpl; [|discriminate].
    destruct (Z.eqb_spec (fst (_latestTextureAndFence s)) 0); simpl;
      [|discriminate].
    destruct (Z.eqb_spec (_maxFps s) 0);
      [eauto|].
    destruct (uint64 (now - _lastRenderTime s) <? USECS_PER_SECOND / _maxFps s);
      discriminate.
  - intros [[now ->] [Hr [Hl Hf]]]. simpl. rewrite onTimer_run.
    unfold nonnull. rewrite Hr, Hl, Hf. reflexivity.
Qed.

(** ** The shared context *)

(** X13.  The shared context round-trips through the application property:
    after [setSharedContext] with the current context, [getSharedContext]
    returns that context, and the render-thread initialization that follows
    aborts exactly when the render context's share context is a different
    one. *)
Theorem shared_context_round_trip (ctx shareContext : Ptr) (nsight : bool)
  (s : SharedObject) :
  (setSharedContext ctx ctx ;; getSharedContext) s =
    Done ctx (set_appSharedContext ctx s)
      [AppSetProperty OFFSCREEN_QML_SHARED_CONTEXT_PROPERTY] /\
  ((exists msg,
      (setSharedContext ctx ctx ;; initializeRenderControl shareContext nsight) s
      = Fatal msg)
   <-> shareContext <> ctx) /\
  (shareContext = ctx ->
   (setSharedContext ctx ctx ;; initializeRenderControl shareContext nsight) s =
     Done tt (set_appSharedContext ctx s)
       (AppSetProperty OFFSCREEN_QML_SHARED_CONTEXT_PROPERTY ::
        if nsight then [] else [RenderControlInitialize])).
Proof.
  assert (S : setSharedContext ctx ctx s =
              Done tt (set_appSharedContext ctx s)
                [AppSetProperty OFFSCREEN_QML_SHARED_CONTEXT_PROPERTY]).
  { unfold_members. cbn -[Z.eqb]. rewrite Z.eqb_refl. reflexivity. }
  assert (I : initializeRenderControl shareContext nsight
                (set_appSharedContext ctx s) =
              if shareContext =? ctx
              then Done tt (set_appSharedContext ctx s)
                     (if nsight then [] else [RenderControlInitialize])
              else Fatal "QML rendering context has no share context").
  { unfold_members. cbn -[Z.eqb].
    destruct (shareContext =? ctx), nsight; reflexivity. }
  unfold bind at 1 2 3. rewrite S, I. split; [reflexivity|]. split.
  - destruct (Z.eqb_spec shareContext ctx) as [E|E].
    + split; [|contradiction]. destruct nsight; intros [msg H]; discriminate.
    + split; [auto|]. intros _. eexists. reflexivity.
  - intros E. rewrite E, Z.eqb_refl. destruct nsight; reflexivity.
Qed.

Lemma shared_context_round_trip_witness :
  (setSharedContext 512 512 ;; getSharedContext) sample_object =
    Done 512 (set_appSharedContext 512 sample_object)
      [AppSetProperty OFFSCREEN_QML_SHARED_CONTEXT_PROPERTY] /\
  ((exists msg,
      (setSharedContext 512 512 ;; initializeRenderControl 512 false) sample_object
      = Fatal msg)
   <-> 512 <> 512) /\
  (setSharedContext 512 512 ;; initializeRenderControl 512 false) sample_object =
    Done tt (set_appSharedContext 512 sample_object)
      [AppSetProperty OFFSCREEN_QML_SHARED_CONTEXT_PROPERTY;
       RenderControlInitialize].
Proof.
  destruct (shared_context_round_trip 512 512 false sample_object)
    as [H1 [H2 H3]].
  split; [exact H1|]. split; [exact H2|]. apply H3. reflexivity.
Defined.

(** ** Life cycle *)

Lemma setRootItem_run (rootItem : Ptr) (windowSize : QSize) (s : SharedObject) :
  setRootItem rootItem windowSize s =
  Done tt
    (set_nextAddress (Pos.succ (Pos.succ (nextAddress s)))
       (set_renderObject (Z.pos (Pos.succ (nextAddress s)))
          (set_renderThread (Z.pos (nextAddress s))
             (set_rootItem rootItem s))))
    [Store f_rootItem; RootItemSetSize windowSize; Store f_renderThread;
     ThreadSetObjectName; ThreadStart; Store f_renderObject;
     PostEvent ToThis Initialize NormalEventPriority;
     Connect "renderRequested"; Connect "sceneChanged"].
Proof. reflexivity. Qed.

(** X14.  Once a non-null root item has been set, [create] aborts, and
    [destroy] on an object that is not yet quitting takes the full shutdown
    path: it sets [_quit] and [_paused], posts Quit to the render object with
    high priority exactly once (after the Initialize event that
    [setRootItem] posted to the object) and waits for the render thread
    once. *)
Theorem rooted_life_cycle (rootItem : Ptr) (windowSize : QSize)
  (hasIncubationController : bool) (s : SharedObject) :
  rootItem <> nullptr ->
  _quit s = false ->
  (setRootItem rootItem windowSize ;; create hasIncubationController) s =
    Fatal "QML surface root item already set" /\
  exists s' tr,
    (setRootItem rootItem windowSize ;; destroy) s = Done tt s' tr /\
    _quit s' = true /\ _paused s' = true /\ _rootItem s' = rootItem /\
    posted tr = [(ToThis, Initialize, NormalEventPriority);
                 (ToRenderObject, Quit, HighEventPriority)] /\
    occurrences is_ThreadWait tr = 1%nat /\
    mutex_protocol false tr = Some false.
Proof.
  unfold nullptr. intros Hr Hq.
  assert (Hn : nonnull rootItem = true).
  { unfold nonnull. apply negb_true_iff, Z.eqb_neq, Hr. }
  split.
  - unfold bind. rewrite setRootItem_run.
    unfold create, bind, load. cbn -[nonnull]. rewrite Hn. reflexivity.
  - unfold bind. rewrite setRootItem_run, destroy_run. cbn -[nonnull].
    rewrite Hq, Hn. do 2 eexists. split; [reflexivity|].
    unfold destroy_trace. cbn -[nonnull].
    destruct (nonnull (_renderTimer s)); repeat split.
Qed.

Lemma rooted_life_cycle_witness :
  (setRootItem 4096 (100, 100) ;; create false) sample_object =
    Fatal "QML surface root item already set" /\
  exists s' tr,
    (setRootItem 4096 (100, 100) ;; destroy) sample_object = Done tt s' tr /\
    _quit s' = true /\ _paused s' = true /\ _rootItem s' = 4096 /\
    posted tr = [(ToThis, Initialize, NormalEventPriority);
                 (ToRenderObject, Quit, HighEventPriority)] /\
    occurrences is_ThreadWait tr = 1%nat /\
    mutex_protocol false tr = Some false.
Proof.
  apply (rooted_life_cycle 4096 (100, 100) false sample_object).
  - unfold nullptr. lia.
  - reflexivity.
Defined.

(** X15.  [shutdownRendering] takes the mutex first and releases it last:
    with it held it releases the textures of the given size exactly when that
    size is not 0x0, then invalidates the render control, releases the canvas
    and wakes the waiter once.  It hands back no mailbox frame and leaves
    every member as it was. *)
Theorem shutdownRendering_behaviour (size : QSize) (s : SharedObject) :
  exists tr,
    shutdownRendering size s = Done tt s tr /\
    tr = MutexLock ::
         (if QSize_eqb size (0, 0) then [] else [ReleaseSize size]) ++
         [RenderControlInvalidate; CanvasDoneCurrent; CondWakeOne; MutexUnlock] /\
    held_during is_shutdown_work false tr = true /\
    filter is_ReleaseSize tr =
      (if QSize_eqb size (0, 0) then [] else [ReleaseSize size]) /\
    In RenderControlInvalidate tr /\ In CanvasDoneCurrent tr /\
    wakes tr = 1%nat /\ released tr = [] /\ stores tr = [] /\
    mutex_protocol false tr = Some false.
Proof.
  unfold_members. cbn -[QSize_eqb].
  destruct (QSize_eqb size (0, 0)); cbn; eexists;
    (split; [reflexivity|]); cbn; repeat split; auto.
Qed.




(** X17.  A resize hands a sync to the pre-render step.  After [setSize]
    with a new size on an object that is not quitting, the size is in place
    and a sync and a render are requested.  A pre-render step that runs on
    that state calls [wakeOne] once whatever happens, calls [sync] exactly
    when the object is not paused and nsight is inactive, returns true exactly
    when the object is not paused and nsight is active or sync succeeds, and
    clears [_syncRequested] exactly when it returns true; the size stays in
    place. *)
Theorem resize_hands_sync_to_preRender (size : QSize) (s : SharedObject)
  (nsight syncOutcome : bool) :
  _size s <> size ->
  _quit s = false ->
  exists s1 t1 r s2 t2,
    setSize size s = Done tt s1 t1 /\
    _size s1 = size /\ _syncRequested s1 = true /\ _renderRequested s1 = true /\
    preRender nsight syncOutcome s1 = Done r s2 t2 /\
    wakes t2 = 1%nat /\
    (In RenderControlSync t2 <-> _paused s = false /\ nsight = false) /\
    r = negb (_paused s) && (nsight || syncOutcome) /\
    _syncRequested s2 = negb r /\ _size s2 = size.
Proof.
  destruct s as [l rt c w o t th lr sz fps rr sr q p asc na]. simpl.
  intros Hs Hq. subst q.
  rewrite setSize_run. cbn -[QSize_eqb nonnull preRender].
  rewrite (QSize_eqb_neq _ _ Hs).
  destruct p, nsight, syncOutcome;
    do 5 eexists; (split; [reflexivity|]); rewrite preRender_run; cbn;
    repeat split; auto; cbn; intros; cbn in *;
    repeat match goal with
           | H : _ /\ _ |- _ => destruct H
           | H : _ \/ _ |- _ => destruct H
           end;
    try discriminate; try contradiction; auto.
Qed.

Lemma resize_hands_sync_to_preRender_witness :
  exists s1 t1 r s2 t2,
    setSize (200, 200) rooted_object = Done tt s1 t1 /\
    _size s1 = (200, 200) /\ _syncRequested s1 = true /\
    _renderRequested s1 = true /\
    preRender false false s1 = Done r s2 t2 /\
    wakes t2 = 1%nat /\
    (In RenderControlSync t2 <-> _paused rooted_object = false /\ false = false) /\
    r = negb (_paused rooted_object) && (false || false) /\
    _syncRequested s2 = negb r /\ _size s2 = (200, 200).
Proof.
  apply (resize_hands_sync_to_preRender (200, 200) rooted_object false false).
  - simpl. discriminate.
  - reflexivity.
Defined.

(** X18.  A frame whose texture is 0 is never delivered: publishing it
    still hands the frame held before back to the texture cache, but a fetch
    after it returns false and leaves the caller's variable alone, and the
    next publish releases nothing, so the fence that came with texture 0 is
    dropped without being released. *)
Theorem null_texture_is_never_delivered (fence : Ptr) (next out : TextureAndFence)
  (s : SharedObject) :
  exists s1 t1 t2,
    updateTextureAndFence (0, fence) s = Done tt s1 t1 /\
    released t1 = opt_list (holding s) /\
    _latestTextureAndFence s1 = (0, fence) /\
    fetchTexture out s1 = Done (false, out) s1 [MutexLock; MutexUnlock] /\
    updateTextureAndFence next s1 = Done tt (set_latestTextureAndFence next s) t2 /\
    released t2 = [].
Proof.
  rewrite updateTextureAndFence_run. do 3 eexists.
  split; [reflexivity|]. split.
  { destruct (holding s); reflexivity. }
  split; [reflexivity|]. split.
  { rewrite fetchTexture_run. reflexivity. }
  rewrite updateTextureAndFence_run. split; reflexivity.
Qed.
